(** * FormatForge image converter: a shallow embedding of [app.py]

    The conversion engine of [app.py] is embedded function by function:
    the format registry ([normalize_format_name],
    [get_extension_for_format]), format detection
    ([image_format_from_pil]), the size parser ([parse_custom_sizes]),
    the orchestrator ([convert_image_to_bytes]) and the per-file loop of
    [main].

    Python values are modelled as follows.
    - A [str] is a list of Unicode code points ([pystr]).
    - A [dict] is a [gmap].
    - An exception raised by a call is the [Raise] case of [result]; a
      [try]/[except Exception] is [try_except].
    - Pillow is an external library: its decoder, mode conversion, paste
      and encoders are the fields of the record [Pillow], and every
      function that calls them takes that record as a parameter.
    - The uploaded image object is shared and mutated by [seek]; it lives
      in the store [World] together with the output buffer. *)

From Stdlib Require Import ZArith NArith Ascii String List Lia.
From Stdlib Require Import DecimalString DecimalPos DecimalFacts.
From stdpp Require Import base option list gmap strings numbers.

Local Open Scope N_scope.

(** ** Python strings *)

(** A Python [str]: the sequence of its code points. *)
Definition pystr : Type := list N.

(** A string literal of the source (all literals of [app.py] that the
    engine uses are ASCII). *)
Definition lit (s : string) : pystr :=
  (fun a => N_of_ascii a) <$> list_ascii_of_string s.

(** [str.isspace] on one code point: the characters [str.strip()] removes. *)
Definition py_isspace (c : N) : bool :=
  ((9 <=? c) && (c <=? 13)) || ((28 <=? c) && (c <=? 32))
  || (c =? 133) || (c =? 160) || (c =? 5760)
  || ((8192 <=? c) && (c <=? 8202))
  || (c =? 8232) || (c =? 8233) || (c =? 8239) || (c =? 8287)
  || (c =? 12288).

Fixpoint py_lstrip (s : pystr) : pystr :=
  match s with
  | [] => []
  | c :: r => if py_isspace c then py_lstrip r else s
  end.

Fixpoint py_rstrip (s : pystr) : pystr :=
  match s with
  | [] => []
  | c :: r =>
      match py_rstrip r with
      | [] => if py_isspace c then [] else [c]
      | r' => c :: r'
      end
  end.

(** [s.strip()] *)
Definition py_strip (s : pystr) : pystr := py_rstrip (py_lstrip s).

(** Case mapping of one code point.  The tables are those of Unicode on
    the ASCII range and on U+0131 (LATIN SMALL LETTER DOTLESS I, whose
    upper case is the ASCII letter I and which is its own lower case);
    every other code point is left as it is, which is what Python does
    for a character without case.  Statements that depend on the case of
    characters outside this range are made for ASCII strings
    ([ascii_str]). *)
Definition lower_char (c : N) : N :=
  if (65 <=? c) && (c <=? 90) then c + 32 else c.

Definition upper_char (c : N) : N :=
  if (97 <=? c) && (c <=? 122) then c - 32
  else if c =? 305 then 73
  else c.

(** [s.lower()] and [s.upper()] *)
Definition py_lower (s : pystr) : pystr := lower_char <$> s.
Definition py_upper (s : pystr) : pystr := upper_char <$> s.

Definition ascii_str (s : pystr) : Prop := Forall (fun c => c < 128) s.

(** [s.startswith(p)] *)
Fixpoint py_startswith (s p : pystr) : bool :=
  match p, s with
  | [], _ => true
  | _ :: _, [] => false
  | a :: p', b :: s' => (a =? b) && py_startswith s' p'
  end.

(** [s.lstrip(".")] *)
Fixpoint lstrip_dots (s : pystr) : pystr :=
  match s with
  | [] => []
  | c :: r => if c =? 46 then lstrip_dots r else s
  end.

(** [s.split(",")]: never empty, one more field than there are commas. *)
Fixpoint split_commas (s : pystr) : list pystr :=
  match s with
  | [] => [[]]
  | c :: r =>
      if c =? 44 then [] :: split_commas r
      else match split_commas r with
           | [] => [[c]]
           | w :: ws => (c :: w) :: ws
           end
  end.

(** ** Format registry *)

Module Registry.

(** The [mapping] dict literal of [normalize_format_name]. *)
Definition mapping : gmap pystr pystr :=
  list_to_map
    [ (lit "jpg", lit "JPEG"); (lit "jpeg", lit "JPEG");
      (lit "png", lit "PNG");
      (lit "ico", lit "ICO"); (lit "icon", lit "ICO");
      (lit "gif", lit "GIF"); (lit "bmp", lit "BMP");
      (lit "webp", lit "WEBP");
      (lit "tiff", lit "TIFF"); (lit "tif", lit "TIFF") ].

Definition normalize_format_name (name : pystr) : pystr :=
  match name with
  | [] => []
  | _ =>
      let name := py_lower (py_strip name) in
      default (py_upper name) (mapping !! name)
  end.

(** The [ext_map] dict literal of [get_extension_for_format]. *)
Definition ext_map : gmap pystr pystr :=
  list_to_map
    [ (lit "JPEG", lit ".jpg"); (lit "PNG", lit ".png");
      (lit "ICO", lit ".ico"); (lit "GIF", lit ".gif");
      (lit "BMP", lit ".bmp"); (lit "WEBP", lit ".webp");
      (lit "TIFF", lit ".tiff") ].

Definition get_extension_for_format (format_name : pystr) : pystr :=
  let fmt := normalize_format_name format_name in
  default (lit "." ++ py_lower fmt) (ext_map !! fmt).

(** The enumerated formats of the specification. *)
Inductive ImageFormat : Type := PNG | JPEG | ICO | GIF | BMP | WEBP | TIFF.

Definition format_name (f : ImageFormat) : pystr :=
  match f with
  | PNG => lit "PNG" | JPEG => lit "JPEG" | ICO => lit "ICO"
  | GIF => lit "GIF" | BMP => lit "BMP" | WEBP => lit "WEBP"
  | TIFF => lit "TIFF"
  end.

Definition all_formats : list ImageFormat :=
  [PNG; JPEG; ICO; GIF; BMP; WEBP; TIFF].

(** The specification's name table: the seven names and the aliases
    jpg, icon and tif, in lower case. *)
Definition alias_of (key : pystr) : option ImageFormat :=
  if bool_decide (key = lit "png") then Some PNG
  else if bool_decide (key = lit "jpg") || bool_decide (key = lit "jpeg")
  then Some JPEG
  else if bool_decide (key = lit "ico") || bool_decide (key = lit "icon")
  then Some ICO
  else if bool_decide (key = lit "gif") then Some GIF
  else if bool_decide (key = lit "bmp") then Some BMP
  else if bool_decide (key = lit "webp") then Some WEBP
  else if bool_decide (key = lit "tif") || bool_decide (key = lit "tiff")
  then Some TIFF
  else None.

(** Normalization as the specification words it: a case-insensitive
    lookup in the name table that fails ([None], the specification's
    UnknownFormat) on every other name. *)
Definition spec_normalize (name : pystr) : option ImageFormat :=
  alias_of (py_lower (py_strip name)).

End Registry.

(** ** Exceptions *)

(** The classes of Python exceptions the engine can meet; all of them
    derive from [Exception]. *)
Inductive exn_class : Type :=
  | ValueError | IndexError | EOFError | OSError
  | UnidentifiedImageError | OtherException.

(** An exception object: its class and the text [str(e)] gives. *)
Record exn : Type := Exn { exn_cls : exn_class; exn_msg : pystr }.

Inductive result (A : Type) : Type :=
  | Ok (a : A)
  | Raise (e : exn).
Arguments Ok {A} a.
Arguments Raise {A} e.

#[global] Instance result_ret : MRet result := λ A a, Ok a.
#[global] Instance result_bind : MBind result := λ A B f m,
  match m with
  | Ok a => f a
  | Raise e => Raise e
  end.

Definition is_unidentified (e : exn) : bool :=
  match exn_cls e with
  | UnidentifiedImageError => true
  | _ => false
  end.

(** ** Integers from text *)

Local Open Scope Z_scope.

Definition is_digit (c : N) : bool := ((48 <=? c) && (c <=? 57))%N.

(** The digits of an [int()] literal after its sign: decimal digits, with
    single underscores allowed between two digits only. *)
Fixpoint digits_value (s : pystr) (prev_digit : bool) (acc : Z) : option Z :=
  match s with
  | [] => if prev_digit then Some acc else None
  | c :: r =>
      if is_digit c then digits_value r true (10 * acc + (Z.of_N c - 48))
      else if (c =? 95)%N && prev_digit then digits_value r false acc
      else None
  end.

Definition invalid_literal : exn :=
  Exn ValueError (lit "invalid literal for int() with base 10").

(** [int(s)] for a [str] argument: surrounding whitespace is dropped, one
    sign is accepted, anything else raises [ValueError].  Digits are the
    ASCII digits; the decimal digits of other scripts, which Python also
    reads, and the interpreter's limit on the length of a literal are
    outside the model. *)
Definition py_int (s : pystr) : result Z :=
  let t := py_strip s in
  let '(neg, body) :=
    match t with
    | c :: r =>
        if (c =? 45)%N then (true, r)
        else if (c =? 43)%N then (false, r)
        else (false, t)
    | [] => (false, t)
    end in
  match digits_value body false 0 with
  | Some n => Ok (if neg : bool then - n else n)
  | None => Raise invalid_literal
  end.

(** ** Icon sizes *)

Module Sizes.

Definition size : Type := (Z * Z)%type.

(** The [for p in parts] loop of [parse_custom_sizes]; an exception of
    [int(p)] leaves the loop. *)
Fixpoint parse_loop (parts : list pystr) (sizes : list size)
  : result (list size) :=
  match parts with
  | [] => Ok sizes
  | p :: ps =>
      val ← py_int p;
      parse_loop ps (if 0 <? val then sizes ++ [(val, val)] else sizes)
  end.

(** [[p.strip() for p in text.split(",") if p.strip()]] *)
Definition parts_of (text : pystr) : list pystr :=
  omap (fun p => match py_strip p with
                 | [] => None
                 | q => Some q
                 end)
       (split_commas text).

Definition parse_custom_sizes (text : pystr) : list size :=
  match parse_loop (parts_of text) [] with
  | Ok sizes => sizes
  | Raise _ => []
  end.

Definition fallback_sizes : list size := [(256, 256); (128, 128); (64, 64)].

(** The [# prepare ICO sizes list] chain of [main]. *)
Definition prepare_ico_sizes (ico_preset custom_sizes_text : pystr)
  : list size :=
  if py_startswith ico_preset (lit "Default")
     || py_startswith ico_preset (lit "All")
  then [(256, 256); (128, 128); (64, 64); (48, 48); (32, 32); (16, 16)]
  else if py_startswith ico_preset (lit "Small") then [(16, 16); (32, 32)]
  else if py_startswith ico_preset (lit "Medium")
  then [(64, 64); (128, 128)]
  else if py_startswith ico_preset (lit "Large") then [(256, 256)]
  else if py_startswith ico_preset (lit "Custom") then
    let parsed := parse_custom_sizes custom_sizes_text in
    match parsed with
    | [] => fallback_sizes
    | _ => parsed
    end
  else fallback_sizes.

(** Parsing as the specification words it: every token is judged on its
    own; a token that is not a positive integer is dropped and the others
    are kept. *)
Definition spec_parse_sizes (text : pystr) : list size :=
  omap (fun p => match py_int p with
                 | Ok val => if 0 <? val then Some (val, val) else None
                 | Raise _ => None
                 end)
       (parts_of text).

Definition numeric (p : pystr) : bool :=
  match py_int p with
  | Ok _ => true
  | Raise _ => false
  end.

End Sizes.

(** ** Paths *)

Fixpoint rfind_from (c : N) (p : pystr) (i last : Z) : Z :=
  match p with
  | [] => last
  | x :: r => rfind_from c r (i + 1) (if (x =? c)%N then i else last)
  end.

(** [p.rfind(c)] for a one-character [c]: [-1] when absent. *)
Definition py_rfind (p : pystr) (c : N) : Z := rfind_from c p 0 (-1).

(** [os.path.basename] (POSIX). *)
Definition py_basename (p : pystr) : pystr :=
  drop (Z.to_nat (py_rfind p 47 + 1)) p.

(** [os.path.splitext] (POSIX): the extension starts at the last dot of
    the last path component, unless that component has only dots before
    it. *)
Definition py_splitext (p : pystr) : pystr * pystr :=
  let sepIndex := py_rfind p 47 in
  let dotIndex := py_rfind p 46 in
  if (sepIndex <? dotIndex)
     && existsb (fun x => negb (x =? 46)%N)
          (take (Z.to_nat (dotIndex - sepIndex - 1))
             (drop (Z.to_nat (sepIndex + 1)) p))
  then (take (Z.to_nat dotIndex) p, drop (Z.to_nat dotIndex) p)
  else (p, []).

(** ** Images and the Pillow interface *)

Definition bytes : Type := list Byte.byte.

(** Values found in [img.info] and passed as encoder options. *)
Inductive pyval : Type :=
  | PInt (z : Z)
  | PBool (b : bool)
  | PStr (s : pystr)
  | PBytes (b : bytes).

(** What one frame of a file gives the image object when it is loaded:
    [mode], [size], [info] and the pixel data. *)
Record Frame : Type := MkFrame {
  fr_mode : pystr;
  fr_size : Z * Z;
  fr_info : gmap string pyval;
  fr_data : bytes
}.

(** A [PIL.Image.Image] object.  [im_cur] holds the attributes of the
    frame the object is positioned at, [im_frames] the frames [seek] can
    load ([n_frames] is its length) and [im_tell] the position. *)
Record Image : Type := MkImage {
  im_format : option pystr;
  im_cur : Frame;
  im_frames : list Frame;
  im_tell : nat
}.

Definition im_mode (img : Image) : pystr := fr_mode (im_cur img).
Definition im_size (img : Image) : Z * Z := fr_size (im_cur img).
Definition im_info (img : Image) : gmap string pyval := fr_info (im_cur img).

(** [getattr(img, "is_animated", False)]: Pillow defines [is_animated] as
    [n_frames > 1]. *)
Definition is_animated (img : Image) : bool :=
  (1 <? length (im_frames img))%nat.

(** Keyword arguments of [Image.save]. *)
Inductive kwval : Type :=
  | KVal (v : pyval)
  | KSizes (l : list Sizes.size)
  | KImages (l : list Image).

(** One call of [Image.save]: the image saved, as it is at the call, the
    [format] argument and the other keyword arguments. *)
Record SaveCall : Type := MkSaveCall {
  sc_image : Image;
  sc_format : pystr;
  sc_kwargs : gmap string kwval
}.

(** An [io.BytesIO]: its contents and its position. *)
Record BytesIO : Type := MkBytesIO { bio_data : bytes; bio_pos : nat }.

(** The operations of Pillow that the engine calls.  Nothing is assumed
    of them: a call may fail, [paste] may have changed its target when
    it fails, and [save] may have written to the buffer when it fails. *)
Record Pillow : Type := MkPillow {
  (** [Image.open(io.BytesIO(b))] followed by [img.load()] *)
  pil_open : bytes -> result Image;
  (** [img.convert(mode)]: a new image made from the current frame *)
  pil_convert : Image -> pystr -> result Image;
  (** [Image.new(mode, size, color)] *)
  pil_new : pystr -> Z * Z -> Z * Z * Z -> result Image;
  (** [img.split()] *)
  pil_split : Image -> result (list Image);
  (** [bg.paste(src, mask=m)]: the target after the call and the
      exception raised, if any *)
  pil_paste : Image -> Image -> option Image -> Image * option exn;
  (** [img.save(fp, format=..., **kw)]: the buffer after the call and the
      exception raised, if any *)
  pil_save : SaveCall -> BytesIO -> BytesIO * option exn
}.

(** ** The store and its monad *)

(** The objects [convert_image_to_bytes] mutates: the image it was given
    (moved by [seek]), [out_buffer], and the record of the encoder calls
    made so far. *)
Record World : Type := MkWorld {
  w_img : Image;
  w_out : BytesIO;
  w_saves : list SaveCall
}.

(** A computation that may raise; the store survives the exception. *)
Definition M (A : Type) : Type := World -> result A * World.

#[global] Instance M_ret : MRet M := λ A a w, (Ok a, w).
#[global] Instance M_bind : MBind M := λ A B f m w,
  match m w with
  | (Ok a, w') => f a w'
  | (Raise e, w') => (Raise e, w')
  end.

Definition lift {A} (r : result A) : M A := λ w, (r, w).

Definition raise {A} (e : exn) : M A := λ w, (Raise e, w).

(** [try: m  except Exception as e: h e] *)
Definition try_except {A} (m : M A) (h : exn -> M A) : M A := λ w,
  match m w with
  | (Ok a, w') => (Ok a, w')
  | (Raise e, w') => h e w'
  end.

(** A Python variable that holds an image: either the very object the
    function was given, or an object created since. *)
Inductive imgref : Type :=
  | TheImage
  | Created (im : Image).

Definition deref (r : imgref) : M Image := λ w,
  match r with
  | TheImage => (Ok (w_img w), w)
  | Created im => (Ok im, w)
  end.

Definition no_more_frames : exn := Exn EOFError (lit "no more images in file").

(** [img.seek(k)] on the image of the store. *)
Definition seek (k : nat) : M unit := λ w,
  let img := w_img w in
  match im_frames img !! k with
  | Some f =>
      (Ok tt,
       MkWorld (MkImage (im_format img) f (im_frames img) k)
               (w_out w) (w_saves w))
  | None => (Raise no_more_frames, w)
  end.

Section Engine.

Context (P : Pillow).

(** The encoder runs on [out_buffer]; the call is recorded. *)
Definition encode (call : SaveCall) : M unit := λ w,
  let '(buf, failure) := pil_save P call (w_out w) in
  let w' := MkWorld (w_img w) buf (w_saves w ++ [call]) in
  match failure with
  | None => (Ok tt, w')
  | Some e => (Raise e, w')
  end.

(** [r.save(out_buffer, format=fmt, **kw)] *)
Definition save (r : imgref) (fmt : pystr) (kw : gmap string kwval)
  : M unit :=
  im ← deref r;
  encode (MkSaveCall im fmt kw).

(** [r.convert(mode)] *)
Definition convert (r : imgref) (mode : pystr) : M imgref :=
  im ← deref r;
  c ← lift (pil_convert P im mode);
  mret (Created c).

(** [out_buffer.seek(0); out_buffer.read()] *)
Definition read_all : M bytes := λ w,
  let data := bio_data (w_out w) in
  (Ok data, MkWorld (w_img w) (MkBytesIO data (length data)) (w_saves w)).

(** ** Format detection *)

Definition read_image_from_upload (contents : bytes) : result Image :=
  pil_open P contents.

Definition image_format_from_pil (img : Image) (filename_hint : pystr)
  : pystr :=
  let ext_tier :=
    match filename_hint with
    | [] => None
    | _ =>
        match py_upper (lstrip_dots (snd (py_splitext filename_hint))) with
        | [] => None
        | ext => Some ext
        end
    end in
  match im_format img with
  | Some (c :: fmt) => py_upper (c :: fmt)
  | _ =>
      match ext_tier with
      | Some ext => ext
      | None => py_upper (im_mode img)
      end
  end.

(** ** The orchestrator *)

Definition has_alpha_mode (img : Image) : bool :=
  bool_decide (im_mode img = lit "RGBA") || bool_decide (im_mode img = lit "LA").

Definition has_palette_transparency (img : Image) : bool :=
  bool_decide (im_mode img = lit "P")
  && bool_decide (is_Some (im_info img !! "transparency")).

(** [bg.paste(src, mask=m)] on a local image [bg]: the image after the
    call, also when the call raised. *)
Definition paste (bg src : Image) (m : option Image)
  : Image * result unit :=
  let '(bg', failure) := pil_paste P bg src m in
  (bg', match failure with
        | None => Ok tt
        | Some e => Raise e
        end).

(** [seq[-1]] *)
Definition last_item (l : list Image) : result Image :=
  match list.last l with
  | Some x => Ok x
  | None => Raise (Exn IndexError (lit "tuple index out of range"))
  end.

(** The [# Handle JPEG background if needed] block for [target == "JPEG"]:
    the value of [img_to_save]. *)
Definition jpeg_image_to_save (img : Image) (jpeg_bg_rgb : Z * Z * Z)
  : result Image :=
  if has_alpha_mode img || has_palette_transparency img then
    bg ← pil_new P (lit "RGB") (im_size img) jpeg_bg_rgb;
    if has_alpha_mode img then
      bands ← pil_split P img;
      mask ← last_item bands;
      let '(bg1, r) := paste bg img (Some mask) in
      _ ← r; Ok bg1
    else
      let '(bg1, r) := paste bg img None in
      match r with
      | Ok _ => Ok bg1
      | Raise _ =>
          rgb ← pil_convert P img (lit "RGB");
          let '(bg2, r2) := paste bg1 rgb None in
          _ ← r2; Ok bg2
      end
  else pil_convert P img (lit "RGB").

(** [for frame in ImageSequence.Iterator(img):
       frames.append(frame.convert("RGBA"))].
    The iterator seeks the image itself to positions 0, 1, ... and yields
    that same object each time; it stops when [seek] has no frame left,
    that is after the positions [ks] = 0 .. n_frames - 1. *)
Fixpoint collect_frames (ks : list nat) (frames : list Image)
  : M (list Image) :=
  match ks with
  | [] => mret frames
  | k :: ks' =>
      _ ← seek k;
      frame ← convert TheImage (lit "RGBA");
      im ← deref frame;
      collect_frames ks' (frames ++ [im])
  end.

(** The keyword arguments of the animated save. *)
Definition animated_kwargs (rest : list Image) (loop duration : pyval)
  : gmap string kwval :=
  <["save_all" := KVal (PBool true)]>
  (<["append_images" := KImages rest]>
  (<["loop" := KVal loop]>
  (<["duration" := KVal duration]>
  (<["disposal" := KVal (PInt 2)]> ∅)))).

(** The [# ICO: include sizes parameter] block: [save_kwargs] after it. *)
Definition ico_save_kwargs (target : pystr)
    (ico_sizes : option (list Sizes.size)) : gmap string kwval :=
  if bool_decide (target = lit "ICO") then
    match ico_sizes with
    | Some (s :: l) => <["sizes" := KSizes (s :: l)]> ∅
    | _ => ∅
    end
  else ∅.

(** The body of the [try] of the animated branch: the frames are read
    and converted, then saved in one call. *)
Definition save_animation (n_frames : nat) (loop duration : pyval)
  : M unit :=
  frames ← collect_frames (seq 0 n_frames) [];
  match frames with
  | [] => raise (Exn IndexError (lit "list index out of range"))
  | first :: rest =>
      save (Created first) (lit "GIF") (animated_kwargs rest loop duration)
  end.

(** [format=target if target != "ICO" else "PNG"] *)
Definition retry_format (target : pystr) : pystr :=
  if negb (bool_decide (target = lit "ICO")) then target else lit "PNG".

(** The test that selects the animated branch. *)
Definition animated_branch (target : pystr) (img : Image)
    (preserve_animation : bool) : bool :=
  bool_decide (target = lit "GIF") && is_animated img && preserve_animation.

(** [f"{base_name}{get_extension_for_format(target)}"] *)
Definition out_filename_for (original_filename target : pystr) : pystr :=
  let base_name := fst (py_splitext (py_basename original_filename)) in
  base_name ++ Registry.get_extension_for_format target.

(** The body of [convert_image_to_bytes], run on the store. *)
Definition convert_image_to_bytes_body
    (target_format original_filename : pystr)
    (jpeg_bg_rgb : Z * Z * Z) (ico_sizes : option (list Sizes.size))
    (preserve_animation : bool) : M (bytes * pystr) :=
  let target := Registry.normalize_format_name target_format in
  img ← deref TheImage;
  img_to_save ←
    (if bool_decide (target = lit "JPEG")
     then bg ← lift (jpeg_image_to_save img jpeg_bg_rgb); mret (Created bg)
     else mret TheImage);
  let save_kwargs := ico_save_kwargs target ico_sizes in
  _ ←
    (if animated_branch target img preserve_animation
     then
       let duration := default (PInt 100) (im_info img !! "duration") in
       let loop := default (PInt 0) (im_info img !! "loop") in
       try_except
         (save_animation (length (im_frames img)) loop duration)
         (λ _,
            temp ← convert img_to_save (lit "RGBA");
            save temp (lit "GIF") ∅)
     else
       try_except
         (save img_to_save target save_kwargs)
         (λ _,
            temp ← convert img_to_save (lit "RGBA");
            save temp (retry_format target) save_kwargs));
  out_bytes ← read_all;
  mret (out_bytes, out_filename_for original_filename target).

(** The store at the call: the image as it was read, an empty
    [out_buffer], no encoder call yet. *)
Definition initial_world (img : Image) : World :=
  MkWorld img (MkBytesIO [] 0) [].

(** The call [convert_image_to_bytes(img, ...)]: what it returns or
    raises, and the store it leaves. *)
Definition convert_image_to_bytes
    (img : Image) (target_format original_filename : pystr)
    (jpeg_bg_rgb : Z * Z * Z) (ico_sizes : option (list Sizes.size))
    (preserve_animation : bool) : result (bytes * pystr) * World :=
  convert_image_to_bytes_body target_format original_filename
    jpeg_bg_rgb ico_sizes preserve_animation (initial_world img).

(** ** The batch loop of [main] *)

(** An uploaded file: [up.name] and what [up.read()] gives. *)
Record Upload : Type := MkUpload { up_name : pystr; up_contents : bytes }.

(** The options [main] reads from the widgets before the loop. *)
Record Options : Type := MkOptions {
  have_fmt : pystr;
  want_fmt : pystr;
  force_convert : bool;
  preserve_animation_opt : bool;
  jpeg_rgb : Z * Z * Z;
  ico_sizes_opt : list Sizes.size
}.

(** The three lists [main] accumulates. *)
Record Batch : Type := MkBatch {
  converted_files : list (bytes * pystr * pystr);
  skipped_files : list (pystr * pystr);
  errors : list (pystr * pystr)
}.

Definition empty_batch : Batch := MkBatch [] [] [].

Definition add_converted (b : Batch) (x : bytes * pystr * pystr) : Batch :=
  MkBatch (converted_files b ++ [x]) (skipped_files b) (errors b).
Definition add_skipped (b : Batch) (x : pystr * pystr) : Batch :=
  MkBatch (converted_files b) (skipped_files b ++ [x]) (errors b).
Definition add_error (b : Batch) (x : pystr * pystr) : Batch :=
  MkBatch (converted_files b) (skipped_files b) (errors b ++ [x]).

Definition mismatch_reason (detected_norm : pystr) : pystr :=
  lit "Format mismatch (detected: " ++ detected_norm ++ lit ")".

(** The body of [for up in uploaded_files]: the inner [try] around the
    read, the mismatch test, the conversion, and the outer
    [except Exception]. *)
Definition loop_body (o : Options) (b : Batch) (up : Upload) : Batch :=
  match read_image_from_upload (up_contents up) with
  | Raise e =>
      if is_unidentified e
      then add_skipped b (up_name up, lit "Unidentified image")
      else add_error b (up_name up, exn_msg e)
  | Ok img =>
      let detected_format := image_format_from_pil img (up_name up) in
      let selected_input := Registry.normalize_format_name (have_fmt o) in
      let detected_norm := Registry.normalize_format_name detected_format in
      if negb (bool_decide (selected_input = detected_norm))
         && negb (force_convert o)
      then add_skipped b (up_name up, mismatch_reason detected_norm)
      else
        match fst (convert_image_to_bytes img (want_fmt o) (up_name up)
                     (jpeg_rgb o) (Some (ico_sizes_opt o))
                     (preserve_animation_opt o)) with
        | Ok (out_bytes, out_filename) =>
            add_converted b (out_bytes, out_filename, detected_norm)
        | Raise e => add_error b (up_name up, exn_msg e)
        end
  end.

Definition main_loop (o : Options) (uploaded_files : list Upload) : Batch :=
  fold_left (loop_body o) uploaded_files empty_batch.

End Engine.

(** ** Batches as sums of per-file records *)

Definition batch_app (a b : Batch) : Batch :=
  MkBatch (converted_files a ++ converted_files b)
          (skipped_files a ++ skipped_files b)
          (errors a ++ errors b).

(** The number of outcome records of a batch. *)
Definition batch_size (b : Batch) : nat :=
  (length (converted_files b) + length (skipped_files b)
   + length (errors b))%nat.

(** ** A small instance of the Pillow interface

    The theorems below hold for every [Pillow]; this instance serves to
    run the engine on concrete files.  Its encoder writes the pixel data
    of the image it is given and refuses the calls [reject] selects. *)

Module Toy.

Definition memory_image (f : Frame) : Image := MkImage None f [] 0.

Definition convert (im : Image) (mode : pystr) : result Image :=
  Ok (memory_image
        (MkFrame mode (im_size im) (im_info im) (fr_data (im_cur im)))).

Definition new (mode : pystr) (size : Z * Z) (color : Z * Z * Z)
  : result Image :=
  Ok (memory_image (MkFrame mode size ∅ [])).

Definition paste (bg src : Image) (m : option Image) : Image * option exn :=
  (memory_image
     (MkFrame (im_mode bg) (im_size bg) (im_info bg) (fr_data (im_cur src))),
   None).

Definition refused : exn := Exn OSError (lit "cannot write mode").

Definition save (reject : SaveCall -> bool) (c : SaveCall) (b : BytesIO)
  : BytesIO * option exn :=
  if reject c then (b, Some refused)
  else
    let data := bio_data b ++ fr_data (im_cur (sc_image c)) in
    (MkBytesIO data (length data), None).

Definition unidentified : exn :=
  Exn UnidentifiedImageError (lit "cannot identify image file").

(** Three pixel bytes per frame; a file of [n] frames decodes as a GIF
    when [n > 1] and as a JPEG when [n = 1]; the [i]-th frame of a file
    declares a duration of [100 + 50 * i] and a loop count of 0. *)
Definition frame (i : Z) (data : bytes) : Frame :=
  MkFrame (lit "RGB") (1, 1)
    (<["duration" := PInt (100 + 50 * i)]> (<["loop" := PInt 0]> ∅)) data.

Fixpoint frames_of (contents : bytes) (i : Z) : list Frame :=
  match contents with
  | a :: b :: c :: rest => frame i [a; b; c] :: frames_of rest (i + 1)
  | _ => []
  end.

Definition open (contents : bytes) : result Image :=
  match frames_of contents 0 with
  | [] => Raise unidentified
  | [f] => Ok (MkImage (Some (lit "JPEG")) f [f] 0)
  | f :: fs => Ok (MkImage (Some (lit "GIF")) f (f :: fs) 0)
  end.

Definition pillow (reject : SaveCall -> bool) : Pillow :=
  MkPillow open convert new (λ im, Ok [im]) paste (save reject).

(** Encoders that refuse nothing, every image that is not RGBA, or every
    multi-frame call. *)
Definition accept_all (c : SaveCall) : bool := false.
Definition only_rgba (c : SaveCall) : bool :=
  negb (bool_decide (im_mode (sc_image c) = lit "RGBA")).
Definition no_save_all (c : SaveCall) : bool :=
  bool_decide (is_Some (sc_kwargs c !! "save_all")).

Definition px (n : N) : Byte.byte :=
  default Byte.x00 (Byte.of_N n).

(** A photo of one frame and an animation of three. *)
Definition photo : Upload :=
  MkUpload (lit "photo.png") [px 1; px 2; px 3].
Definition anim : Upload :=
  MkUpload (lit "anim.gif")
    [px 1; px 1; px 1; px 2; px 2; px 2; px 3; px 3; px 3].

(** What [open] makes of the two files. *)
Definition photo_image : Image :=
  MkImage (Some (lit "JPEG")) (frame 0 [px 1; px 2; px 3])
    [frame 0 [px 1; px 2; px 3]] 0.
Definition anim_image : Image :=
  MkImage (Some (lit "GIF")) (frame 0 [px 1; px 1; px 1])
    [frame 0 [px 1; px 1; px 1]; frame 1 [px 2; px 2; px 2];
     frame 2 [px 3; px 3; px 3]] 0.

(** A frame after [convert("RGBA")]. *)
Definition rgba (i : Z) (data : bytes) : Image :=
  memory_image
    (MkFrame (lit "RGBA") (1, 1)
       (<["duration" := PInt (100 + 50 * i)]> (<["loop" := PInt 0]> ∅))
       data).

Definition options (have want : string) (force : bool) : Options :=
  MkOptions (lit have) (lit want) force true (255, 255, 255)
    [(16, 16); (32, 32)].

End Toy.

(** ** The background colour of [main] *)

(** The value of a character as a digit in a base up to 36, as [int]
    reads it: the ten digits, then the letters in either case. *)
Definition digit_value (c : N) : option Z :=
  if ((48 <=? c) && (c <=? 57))%N then Some (Z.of_N c - 48)
  else if ((97 <=? c) && (c <=? 122))%N then Some (Z.of_N c - 87)
  else if ((65 <=? c) && (c <=? 90))%N then Some (Z.of_N c - 55)
  else None.

(** The digits of an [int(s, 16)] literal after its sign and prefix. *)
Fixpoint hex_digits_value (s : pystr) (prev_digit : bool) (acc : Z)
  : option Z :=
  match s with
  | [] => if prev_digit then Some acc else None
  | c :: r =>
      match digit_value c with
      | Some d =>
          if d <? 16 then hex_digits_value r true (16 * acc + d)
          else None
      | None =>
          if (c =? 95)%N && prev_digit then hex_digits_value r false acc
          else None
      end
  end.

Definition invalid_hex_literal : exn :=
  Exn ValueError (lit "invalid literal for int() with base 16").

(** [int(s, 16)] for a [str] argument: whitespace around, one sign, an
    optional [0x] or [0X] prefix which one underscore may follow, then
    hexadecimal digits. *)
Definition py_int16 (s : pystr) : result Z :=
  let t := py_strip s in
  let '(neg, body) :=
    match t with
    | c :: r =>
        if (c =? 45)%N then (true, r)
        else if (c =? 43)%N then (false, r)
        else (false, t)
    | [] => (false, t)
    end in
  let digits :=
    match body with
    | z :: x :: r =>
        if (z =? 48)%N && ((x =? 120)%N || (x =? 88)%N) then
          match r with
          | u :: r' => if (u =? 95)%N then r' else r
          | [] => r
          end
        else body
    | _ => body
    end in
  match hex_digits_value digits false 0 with
  | Some n => Ok (if neg : bool then - n else n)
  | None => Raise invalid_hex_literal
  end.

(** [s.lstrip("#")] *)
Fixpoint lstrip_hashes (s : pystr) : pystr :=
  match s with
  | [] => []
  | c :: r => if (c =? 35)%N then lstrip_hashes r else s
  end.

(** [tuple(int(jpeg_bg_color.lstrip("#")[i:i+2], 16) for i in (0, 2, 4))] *)
Definition parse_jpeg_rgb (jpeg_bg_color : pystr) : result (Z * Z * Z) :=
  let h := lstrip_hashes jpeg_bg_color in
  r ← py_int16 (take 2 (drop 0 h));
  g ← py_int16 (take 2 (drop 2 h));
  b ← py_int16 (take 2 (drop 4 h));
  Ok (r, g, b).

(** ** Vocabulary of the statements *)

(** The extension each enumerated format has in [ext_map]. *)
Definition extension_of (f : Registry.ImageFormat) : pystr :=
  match f with
  | Registry.JPEG => lit ".jpg" | Registry.PNG => lit ".png"
  | Registry.ICO => lit ".ico" | Registry.GIF => lit ".gif"
  | Registry.BMP => lit ".bmp" | Registry.WEBP => lit ".webp"
  | Registry.TIFF => lit ".tiff"
  end.



(** A hexadecimal digit. *)
Definition is_hex (c : N) : bool :=
  match digit_value c with
  | Some d => d <? 16
  | None => false
  end.

(** The image object positioned at frame [k]. *)
Definition at_frame (img : Image) (k : nat) (f : Frame) : Image :=
  MkImage (im_format img) f (im_frames img) k.

(** A size the encoder can use: a positive square. *)
Definition positive_square (s : Sizes.size) : Prop :=
  fst s = snd s ∧ (0 < fst s)%Z.


(** The value of two hexadecimal digits. *)
Definition hex_pair (h l : N) : Z :=
  16 * default 0 (digit_value h) + default 0 (digit_value l).

(** What [int(_, 16)] makes of two hexadecimal digits, checked. *)
Definition pair_read (h l : N) : bool :=
  match py_int16 [h; l] with
  | Ok v => ((v =? hex_pair h l) && (0 <=? v) && (v <=? 255))%Z
  | Raise _ => false
  end.

(** * Properties *)

(** ** Strings *)

Section StringFacts.

Local Open Scope N_scope.

Lemma lstrip_head (s : pystr) :
  match py_lstrip s with
  | [] => True
  | c :: _ => py_isspace c = false
  end.
Proof.
  induction s as [|c r IH]; simpl; [done|].
  destruct (py_isspace c) eqn:E; [exact IH | exact E].
Qed.

Lemma rstrip_cons_nonspace (c : N) (r : pystr) :
  py_isspace c = false → py_rstrip (c :: r) = c :: py_rstrip r.
Proof.
  intros E. simpl. rewrite E. by destruct (py_rstrip r).
Qed.

Lemma rstrip_unfold (c : N) (r : pystr) :
  py_rstrip (c :: r)
  = match py_rstrip r with
    | [] => if py_isspace c then [] else [c]
    | r' => c :: r'
    end.
Proof. reflexivity. Qed.

Lemma rstrip_idem (s : pystr) : py_rstrip (py_rstrip s) = py_rstrip s.
Proof.
  induction s as [|c r IH]; simpl; [done|].
  destruct (py_rstrip r) as [|d r'] eqn:E.
  - destruct (py_isspace c) eqn:Ec; simpl; [done|]. by rewrite Ec.
  - rewrite (rstrip_unfold c (d :: r')). by rewrite IH.
Qed.

Lemma strip_idem (s : pystr) : py_strip (py_strip s) = py_strip s.
Proof.
  unfold py_strip. pose proof (lstrip_head s) as H.
  destruct (py_lstrip s) as [|c r]; [done|].
  rewrite (rstrip_cons_nonspace c r H). simpl py_lstrip. rewrite H.
  rewrite <- (rstrip_cons_nonspace c r H). apply rstrip_idem.
Qed.

(** A character map that keeps whitespace whitespace commutes with
    stripping. *)
Lemma lstrip_fmap (g : N → N) (s : pystr) :
  Forall (λ c, py_isspace (g c) = py_isspace c) s →
  py_lstrip (g <$> s) = g <$> py_lstrip s.
Proof.
  induction 1 as [|c r Hc _ IH]; [done|].
  rewrite fmap_cons. cbn [py_lstrip]. rewrite Hc.
  by destruct (py_isspace c).
Qed.

Lemma rstrip_fmap (g : N → N) (s : pystr) :
  Forall (λ c, py_isspace (g c) = py_isspace c) s →
  py_rstrip (g <$> s) = g <$> py_rstrip s.
Proof.
  induction 1 as [|c r Hc _ IH]; [done|].
  rewrite fmap_cons, !rstrip_unfold, IH, Hc.
  destruct (py_rstrip r); simpl; [by destruct (py_isspace c) | done].
Qed.

Lemma lstrip_Forall (Q : N → Prop) (s : pystr) :
  Forall Q s → Forall Q (py_lstrip s).
Proof.
  induction 1 as [|c r Hc Hr IH]; simpl; [done|].
  destruct (py_isspace c); [done | by constructor].
Qed.

Lemma rstrip_Forall (Q : N → Prop) (s : pystr) :
  Forall Q s → Forall Q (py_rstrip s).
Proof.
  induction 1 as [|c r Hc Hr IH]; simpl; [done|].
  destruct (py_rstrip r).
  - destruct (py_isspace c); [done | by constructor].
  - by constructor.
Qed.

Lemma strip_Forall (Q : N → Prop) (s : pystr) :
  Forall Q s → Forall Q (py_strip s).
Proof. intros H. by apply rstrip_Forall, lstrip_Forall. Qed.

Lemma strip_fmap (g : N → N) (s : pystr) :
  Forall (λ c, py_isspace (g c) = py_isspace c) s →
  py_strip (g <$> s) = g <$> py_strip s.
Proof.
  intros H. unfold py_strip. rewrite lstrip_fmap by done.
  by apply rstrip_fmap, lstrip_Forall.
Qed.

(** On ASCII, changing case keeps a character in ASCII, keeps whitespace
    whitespace, and lower case absorbs upper case. *)
Lemma ascii_case_facts (c : N) :
  c < 128 →
  lower_char c < 128 ∧ upper_char c < 128
  ∧ py_isspace (upper_char (lower_char c)) = py_isspace c
  ∧ lower_char (upper_char (lower_char c)) = lower_char c.
Proof.
  intros H.
  assert (Hall : forallb (λ c, (lower_char c <? 128) && (upper_char c <? 128)
             && bool_decide (py_isspace (upper_char (lower_char c)) = py_isspace c)
             && bool_decide (lower_char (upper_char (lower_char c)) = lower_char c))
            (N.of_nat <$> seq 0 128) = true) by (vm_compute; reflexivity).
  rewrite forallb_forall in Hall.
  specialize (Hall c). 
  assert (Hin : In c (N.of_nat <$> seq 0 128)).
  { apply list_elem_of_In, list_elem_of_fmap. exists (N.to_nat c). split; [lia|].
    apply list_elem_of_In, in_seq. lia. }
  specialize (Hall Hin).
  repeat (apply andb_prop in Hall as [Hall ?]).
  repeat match goal with H : bool_decide _ = true |- _ => apply bool_decide_eq_true_1 in H end.
  apply N.ltb_lt in Hall. repeat split; try done. by apply N.ltb_lt.
Qed.

End StringFacts.

(** ** The format registry *)

Module RegistryFacts.
Import Registry.

(** The [mapping] dict holds exactly the specification's name table. *)
Lemma mapping_alias (key : pystr) :
  mapping !! key = format_name <$> alias_of key.
Proof.
  unfold alias_of.
  repeat match goal with
  | |- context [bool_decide (key = ?k)] =>
      destruct (bool_decide_reflect (key = k)) as [->|?]; [reflexivity|]
  end.
  simpl. apply not_elem_of_list_to_map_1. cbn [fmap list_fmap fst].
  rewrite !not_elem_of_cons. repeat split; try done. apply not_elem_of_nil.
Qed.

Lemma normalize_fixes_format (f : ImageFormat) :
  normalize_format_name (format_name f) = format_name f.
Proof. by destruct f. Qed.

Lemma normalize_unfold (name : pystr) :
  normalize_format_name name
  = default (py_upper (py_lower (py_strip name)))
            (mapping !! py_lower (py_strip name)).
Proof. by destruct name. Qed.

(** C1, as the code has it: normalization is total.  A name of the
    table, in any case and with surrounding whitespace, gives its
    enumerated value; every other name gives the stripped name in upper
    case, a value and not a failure. *)
Theorem normalize_format_name_total (name : pystr) :
  match spec_normalize name with
  | Some f => normalize_format_name name = format_name f
  | None =>
      normalize_format_name name = py_upper (py_lower (py_strip name))
  end.
Proof.
  rewrite normalize_unfold, mapping_alias. unfold spec_normalize.
  by destruct (alias_of _).
Qed.

(** C1 fails as stated: "bogus" is outside the name table, and
    normalization returns the value "BOGUS" for it. *)
Lemma normalize_unknown_returns_value :
  spec_normalize (lit "bogus") = None
  ∧ normalize_format_name (lit "bogus") = lit "BOGUS"
  ∧ get_extension_for_format (lit "bogus") = lit ".bogus".
Proof. by vm_compute. Qed.

(** C10, on ASCII names: normalizing twice is normalizing once. *)
Theorem normalize_idempotent_ascii (s : pystr) :
  ascii_str s →
  normalize_format_name (normalize_format_name s) = normalize_format_name s.
Proof.
  intros Hs.
  rewrite (normalize_unfold s), mapping_alias.
  destruct (alias_of (py_lower (py_strip s))) as [f|] eqn:Ekey.
  { apply normalize_fixes_format. }
  cbn [fmap option_fmap option_map default]. rewrite normalize_unfold.
  assert (Hfacts : Forall (λ c, (c < 128)%N
            ∧ py_isspace (upper_char (lower_char c)) = py_isspace c
            ∧ lower_char (upper_char (lower_char c)) = lower_char c)
           (py_strip s)).
  { pose proof (strip_Forall _ _ Hs) as Ht.
    eapply List.Forall_impl; [|exact Ht].
    intros c Hc. simpl in Hc.
    by destruct (ascii_case_facts c Hc) as (_ & _ & ? & ?). }
  assert (Hstrip : py_strip (py_upper (py_lower (py_strip s)))
                   = py_upper (py_lower (py_strip s))).
  { unfold py_upper, py_lower. rewrite <- list_fmap_compose.
    rewrite strip_fmap, strip_idem; [done|].
    eapply List.Forall_impl; [|exact Hfacts]. by intros c (_ & ? & _). }
  assert (Hlower : py_lower (py_upper (py_lower (py_strip s)))
                   = py_lower (py_strip s)).
  { unfold py_upper, py_lower. rewrite <- !list_fmap_compose.
    apply Forall_fmap_ext_1. eapply List.Forall_impl; [|exact Hfacts].
    by intros c (_ & _ & ?). }
  by rewrite Hstrip, Hlower, mapping_alias, Ekey.
Qed.

Lemma normalize_idempotent_ascii_witness :
  ascii_str (lit " Jpg ")
  ∧ normalize_format_name (normalize_format_name (lit " Jpg "))
    = normalize_format_name (lit " Jpg ").
Proof.
  assert (H : ascii_str (lit " Jpg ")).
  { repeat (constructor; [reflexivity|]). constructor. }
  split; [exact H | exact (normalize_idempotent_ascii (lit " Jpg ") H)].
Defined.

(** C10 fails as stated: with a dotless i (U+0131) the name "ıcon" is
    not in the table and normalizes to "ICON", which normalizes to
    "ICO". *)
Lemma normalize_not_idempotent_dotless_i :
  normalize_format_name (305%N :: lit "con") = lit "ICON"
  ∧ normalize_format_name (normalize_format_name (305%N :: lit "con"))
    = lit "ICO"
  ∧ normalize_format_name (normalize_format_name (305%N :: lit "con"))
    ≠ normalize_format_name (305%N :: lit "con").
Proof. by vm_compute. Qed.

End RegistryFacts.

(** ** Icon sizes *)

Module SizesFacts.
Import Sizes.

Local Open Scope Z_scope.

(** What the loop keeps of one numeric token. *)
Lemma parse_loop_all_or_nothing (parts : list pystr) (sizes : list size) :
  parse_loop parts sizes
  = if forallb numeric parts
    then Ok (sizes ++ omap (λ p, match py_int p with
                                 | Ok val =>
                                     if 0 <? val then Some (val, val) else None
                                 | Raise _ => None
                                 end) parts)
    else Raise invalid_literal.
Proof.
  revert sizes. induction parts as [|p ps IH]; intros sizes.
  - simpl. by rewrite app_nil_r.
  - cbn [parse_loop forallb omap list_omap]. unfold numeric at 1.
    assert (Hint : ∀ e, py_int p = Raise e → e = invalid_literal).
    { unfold py_int. intros e. destruct (py_strip p) as [|c r].
      - destruct (digits_value _ _ _); intros [=]; done.
      - destruct (c =? 45)%N; [|destruct (c =? 43)%N];
          destruct (digits_value _ _ _); intros [=]; done. }
    destruct (py_int p) as [val|e] eqn:E.
    + simpl. rewrite IH. destruct (forallb numeric ps); [|done].
      destruct (0 <? val); [|done]. by rewrite <- app_assoc.
    + simpl. by rewrite (Hint e).
Qed.

(** C3, as the code has it: empty tokens and non-positive integers are
    dropped one by one and the positive integers kept, provided every
    token is an integer; one token that is not makes the whole parse
    empty.  For the custom preset, the fallback sizes are taken exactly
    when the parse is empty. *)
Theorem parse_custom_sizes_all_or_nothing (text : pystr) :
  parse_custom_sizes text
  = (if forallb numeric (parts_of text) then spec_parse_sizes text else [])
  ∧ prepare_ico_sizes (lit "Custom (comma separated)") text
    = match parse_custom_sizes text with
      | [] => fallback_sizes
      | _ :: _ => parse_custom_sizes text
      end.
Proof.
  split.
  - unfold parse_custom_sizes, spec_parse_sizes.
    rewrite parse_loop_all_or_nothing.
    by destruct (forallb numeric (parts_of text)).
  - reflexivity.
Qed.

(** C3 fails as stated: in "16,abc,32" the token "abc" is not skipped on
    its own, it empties the parse, and the fallback sizes replace the
    two valid sizes. *)
Lemma parse_custom_sizes_drops_valid_tokens :
  spec_parse_sizes (lit "16,abc,32") = [(16, 16); (32, 32)]
  ∧ parse_custom_sizes (lit "16,abc,32") = []
  ∧ prepare_ico_sizes (lit "Custom (comma separated)") (lit "16,abc,32")
    = fallback_sizes.
Proof. by vm_compute. Qed.

(** Non-positive integers, by contrast, are skipped one by one. *)
Example parse_custom_sizes_skips_nonpositive :
  parse_custom_sizes (lit "16, 0,-4,,+32") = [(16, 16); (32, 32)].
Proof. by vm_compute. Qed.

End SizesFacts.

(** ** Format detection *)

Lemma upper_nil_iff (s : pystr) : py_upper s = [] ↔ s = [].
Proof. unfold py_upper. by destruct s. Qed.

(** C9: the format of the container when there is one; otherwise the
    extension of the file name when it has one; otherwise the pixel
    mode.  Each is given in upper case. *)
Theorem image_format_three_tiers (img : Image) (filename_hint : pystr) :
  let ext := lstrip_dots (snd (py_splitext filename_hint)) in
  (∀ fmt, im_format img = Some fmt → fmt ≠ [] →
     image_format_from_pil img filename_hint = py_upper fmt)
  ∧ (im_format img = None ∨ im_format img = Some [] → ext ≠ [] →
     image_format_from_pil img filename_hint = py_upper ext)
  ∧ (im_format img = None ∨ im_format img = Some [] → ext = [] →
     image_format_from_pil img filename_hint = py_upper (im_mode img)).
Proof.
  intros ext. unfold image_format_from_pil. fold ext.
  split; [|split].
  - intros fmt -> Hne. by destruct fmt.
  - intros Habs Hext.
    assert (Hup : py_upper ext ≠ []) by by rewrite upper_nil_iff.
    assert (Hhint : filename_hint ≠ []) by (intros ->; by apply Hext).
    destruct filename_hint as [|h hint]; [done|].
    destruct Habs as [-> | ->]; by destruct (py_upper ext).
  - intros Habs Hext. rewrite Hext. simpl.
    destruct Habs as [-> | ->]; by destruct filename_hint.
Qed.

Lemma image_format_three_tiers_witness :
  image_format_from_pil
    (MkImage (Some (lit "png")) (MkFrame (lit "rgb") (1, 1) ∅ []) [] 0)
    (lit "a.jpg") = lit "PNG"
  ∧ image_format_from_pil
      (MkImage None (MkFrame (lit "rgb") (1, 1) ∅ []) [] 0)
      (lit "dir.d/a.jpg") = lit "JPG"
  ∧ image_format_from_pil
      (MkImage None (MkFrame (lit "rgb") (1, 1) ∅ []) [] 0)
      (lit "dir.d/a") = lit "RGB".
Proof.
  split; [|split].
  - exact (proj1 (image_format_three_tiers
             (MkImage (Some (lit "png")) (MkFrame (lit "rgb") (1, 1) ∅ []) [] 0)
             (lit "a.jpg")) (lit "png") eq_refl ltac:(discriminate)).
  - exact (proj1 (proj2 (image_format_three_tiers
             (MkImage None (MkFrame (lit "rgb") (1, 1) ∅ []) [] 0)
             (lit "dir.d/a.jpg"))) (or_introl eq_refl) ltac:(discriminate)).
  - exact (proj2 (proj2 (image_format_three_tiers
             (MkImage None (MkFrame (lit "rgb") (1, 1) ∅ []) [] 0)
             (lit "dir.d/a"))) (or_introl eq_refl) eq_refl).
Defined.

(** ** The batch loop *)

Section BatchFacts.

Context (P : Pillow) (o : Options).

Lemma batch_app_empty_r (b : Batch) : batch_app b empty_batch = b.
Proof. destruct b. unfold batch_app. simpl. by rewrite !app_nil_r. Qed.

Lemma batch_app_assoc (a b c : Batch) :
  batch_app (batch_app a b) c = batch_app a (batch_app b c).
Proof. unfold batch_app. simpl. by rewrite !app_assoc. Qed.

Lemma batch_size_app (a b : Batch) :
  batch_size (batch_app a b) = (batch_size a + batch_size b)%nat.
Proof. unfold batch_size, batch_app. simpl. rewrite !length_app. lia. Qed.

(** One pass of the loop appends to the lists and reads nothing from
    them: its effect is the record of the file alone. *)
Lemma loop_body_appends (b : Batch) (up : Upload) :
  loop_body P o b up = batch_app b (loop_body P o empty_batch up).
Proof.
  unfold loop_body.
  repeat match goal with
  | |- context [match ?x with _ => _ end] => destruct x
  end;
  unfold batch_app, add_converted, add_skipped, add_error; simpl;
  by rewrite ?app_nil_r.
Qed.

(** Whatever happens to a file, it leaves exactly one record. *)
Lemma loop_body_one_record (up : Upload) :
  batch_size (loop_body P o empty_batch up) = 1%nat.
Proof.
  unfold loop_body.
  repeat match goal with
  | |- context [match ?x with _ => _ end] => destruct x
  end; reflexivity.
Qed.

Lemma main_loop_from (b : Batch) (files : list Upload) :
  fold_left (loop_body P o) files b = batch_app b (main_loop P o files).
Proof.
  unfold main_loop. revert b.
  induction files as [|up files IH] using rev_ind; intros b.
  - simpl. by rewrite batch_app_empty_r.
  - rewrite !fold_left_app. simpl.
    rewrite (loop_body_appends (fold_left _ _ b)).
    rewrite (loop_body_appends (fold_left _ _ empty_batch)).
    by rewrite IH, batch_app_assoc.
Qed.

Lemma main_loop_app (xs ys : list Upload) :
  main_loop P o (xs ++ ys)
  = batch_app (main_loop P o xs) (main_loop P o ys).
Proof.
  unfold main_loop at 1. rewrite fold_left_app. apply main_loop_from.
Qed.

Lemma main_loop_cons (up : Upload) (files : list Upload) :
  main_loop P o (up :: files)
  = batch_app (loop_body P o empty_batch up) (main_loop P o files).
Proof. unfold main_loop at 1. simpl. apply main_loop_from. Qed.

(** C2: a batch of N files gives N records over the three lists; each
    file contributes exactly one record, and the batch is the records of
    the files before it, its own record, and the records of the files
    after it, whatever happened to it. *)
Theorem main_loop_partition
    (files pre post : list Upload) (up : Upload) :
  batch_size (main_loop P o files) = length files
  ∧ batch_size (loop_body P o empty_batch up) = 1%nat
  ∧ main_loop P o (pre ++ up :: post)
    = batch_app (main_loop P o pre)
        (batch_app (loop_body P o empty_batch up) (main_loop P o post)).
Proof.
  split; [|split].
  - induction files as [|f files IH]; [done|].
    rewrite main_loop_cons, batch_size_app, loop_body_one_record, IH.
    done.
  - apply loop_body_one_record.
  - by rewrite main_loop_app, main_loop_cons.
Qed.

(** C8: a decoded file whose detected format is not the declared one is
    skipped, with the detected format in the reason, when forcing is
    off; when forcing is on it is converted, and lands among the
    converted files or the errors as the conversion decides. *)
Theorem mismatch_skips_unless_forced
    (b : Batch) (up : Upload) (img : Image) :
  read_image_from_upload P (up_contents up) = Ok img →
  let detected_norm :=
    Registry.normalize_format_name
      (image_format_from_pil img (up_name up)) in
  Registry.normalize_format_name (have_fmt o) ≠ detected_norm →
  (force_convert o = false →
     loop_body P o b up
     = add_skipped b
         (up_name up,
          lit "Format mismatch (detected: " ++ detected_norm ++ lit ")"))
  ∧ (force_convert o = true →
     loop_body P o b up
     = match fst (convert_image_to_bytes P img (want_fmt o) (up_name up)
                    (jpeg_rgb o) (Some (ico_sizes_opt o))
                    (preserve_animation_opt o)) with
       | Ok (out_bytes, out_filename) =>
           add_converted b (out_bytes, out_filename, detected_norm)
       | Raise e => add_error b (up_name up, exn_msg e)
       end).
Proof.
  intros Hread detected_norm Hne. unfold loop_body. rewrite Hread.
  fold detected_norm. rewrite bool_decide_eq_false_2 by done.
  split; intros ->; reflexivity.
Qed.

End BatchFacts.

(** A JPEG declared as PNG: skipped when forcing is off, converted when
    it is on. *)
Lemma mismatch_skips_unless_forced_witness :
  main_loop (Toy.pillow Toy.accept_all) (Toy.options "PNG" "GIF" false)
    [Toy.photo]
  = MkBatch [] [(lit "photo.png", lit "Format mismatch (detected: JPEG)")] []
  ∧ main_loop (Toy.pillow Toy.accept_all) (Toy.options "PNG" "GIF" true)
      [Toy.photo]
    = MkBatch [(up_contents Toy.photo, lit "photo.gif", lit "JPEG")] [] [].
Proof.
  split.
  - exact (proj1 (mismatch_skips_unless_forced (Toy.pillow Toy.accept_all)
             (Toy.options "PNG" "GIF" false) empty_batch Toy.photo
             Toy.photo_image
             eq_refl ltac:(by vm_compute)) eq_refl).
  - exact (proj2 (mismatch_skips_unless_forced (Toy.pillow Toy.accept_all)
             (Toy.options "PNG" "GIF" true) empty_batch Toy.photo
             Toy.photo_image
             eq_refl ltac:(by vm_compute)) eq_refl).
Defined.

(** ** The orchestrator *)

(** Runs the monadic code as far as the answers of Pillow are known,
    and splits on the answers that are not. *)
Ltac run_engine :=
  unfold try_except, save, convert, encode, lift, read_all, raise;
  repeat first
    [ progress (unfold mbind, M_bind, mret, M_ret, deref;
                cbn [w_img w_out w_saves fst snd]; cbv beta iota)
    | match goal with
      | |- context [pil_save ?P ?c ?b] =>
          destruct (pil_save P c b) as [? [?|]]
      | |- context [pil_convert ?P ?a ?m] =>
          destruct (pil_convert P a m)
      end ].

Section OrchestratorFacts.

Context (P : Pillow).

Lemma bind_run {A B} (m : M A) (f : A → M B) (w : World) :
  (m ≫= f) w
  = match m w with
    | (Ok a, w') => f a w'
    | (Raise e, w') => (Raise e, w')
    end.
Proof. reflexivity. Qed.

(** The plain branch, step by step: one encoder call; when it fails, one
    conversion to RGBA and one more encoder call on the same buffer. *)
Lemma plain_branch_run
    (img : Image) (target_format original_filename : pystr)
    (bg : Z * Z * Z) (sizes : option (list Sizes.size)) (pres : bool) :
  let target := Registry.normalize_format_name target_format in
  let kw := ico_save_kwargs target sizes in
  let name := out_filename_for original_filename target in
  let done buf calls :=
    (Ok (bio_data buf, name),
     MkWorld img (MkBytesIO (bio_data buf) (length (bio_data buf))) calls) in
  animated_branch target img pres = false →
  convert_image_to_bytes P img target_format original_filename bg sizes pres
  = match (if bool_decide (target = lit "JPEG")
           then jpeg_image_to_save P img bg else Ok img) with
    | Raise e => (Raise e, initial_world img)
    | Ok src =>
        let call1 := MkSaveCall src target kw in
        match pil_save P call1 (MkBytesIO [] 0) with
        | (buf1, None) => done buf1 [call1]
        | (buf1, Some _) =>
            match pil_convert P src (lit "RGBA") with
            | Raise e => (Raise e, MkWorld img buf1 [call1])
            | Ok temp =>
                let call2 := MkSaveCall temp (retry_format target) kw in
                match pil_save P call2 buf1 with
                | (buf2, None) => done buf2 [call1; call2]
                | (buf2, Some e2) =>
                    (Raise e2, MkWorld img buf2 [call1; call2])
                end
            end
        end
    end.
Proof.
  intros target kw name done Hbranch.
  unfold convert_image_to_bytes, convert_image_to_bytes_body, initial_world.
  cbv zeta. rewrite bind_run. cbn [deref w_img]. cbv beta iota.
  fold target. rewrite Hbranch. fold kw. fold name.
  destruct (bool_decide (target = lit "JPEG"));
    [destruct (jpeg_image_to_save P img bg) as [src|e]|];
    run_engine; reflexivity.
Qed.


Lemma animated_branch_gif (target : pystr) (img : Image) (pres : bool) :
  animated_branch target img pres = true →
  target = lit "GIF" ∧ is_animated img = true ∧ pres = true.
Proof.
  unfold animated_branch. intros H.
  apply andb_prop in H as [H ?]. apply andb_prop in H as [H ?].
  by apply bool_decide_eq_true_1 in H.
Qed.

(** The animated branch, step by step: the frames are saved in one
    call; when reading or saving them fails, the image, as [seek] left
    it, is converted to RGBA and saved alone. *)
Lemma animated_branch_run
    (img : Image) (target_format original_filename : pystr)
    (bg : Z * Z * Z) (sizes : option (list Sizes.size)) (pres : bool) :
  let target := Registry.normalize_format_name target_format in
  let name := out_filename_for original_filename target in
  let loop := default (PInt 0) (im_info img !! "loop") in
  let duration := default (PInt 100) (im_info img !! "duration") in
  let done w buf calls :=
    (Ok (bio_data buf, name),
     MkWorld (w_img w) (MkBytesIO (bio_data buf) (length (bio_data buf)))
       calls) in
  animated_branch target img pres = true →
  convert_image_to_bytes P img target_format original_filename bg sizes pres
  = match save_animation P (length (im_frames img)) loop duration
            (initial_world img) with
    | (Ok _, w1) => done w1 (w_out w1) (w_saves w1)
    | (Raise _, w1) =>
        match pil_convert P (w_img w1) (lit "RGBA") with
        | Raise e => (Raise e, w1)
        | Ok temp =>
            let call := MkSaveCall temp (lit "GIF") ∅ in
            match pil_save P call (w_out w1) with
            | (buf2, None) => done w1 buf2 (w_saves w1 ++ [call])
            | (buf2, Some e2) =>
                (Raise e2, MkWorld (w_img w1) buf2 (w_saves w1 ++ [call]))
            end
        end
    end.
Proof.
  intros target name loop duration done Hbranch.
  destruct (animated_branch_gif _ _ _ Hbranch) as (Ht & _ & _).
  unfold convert_image_to_bytes, convert_image_to_bytes_body.
  cbv zeta. rewrite bind_run. cbn [deref initial_world w_img].
  cbv beta iota. fold (initial_world img).
  fold target. rewrite Hbranch. fold name. fold loop. fold duration.
  rewrite (bool_decide_eq_false_2 (target = lit "JPEG"))
    by (rewrite Ht; discriminate).
  rewrite bind_run. unfold mret at 1, M_ret at 1. cbv beta iota.
  rewrite bind_run. unfold try_except at 1.
  destruct (save_animation P _ loop duration _) as [[[]|e1] w1].
  - reflexivity.
  - destruct w1 as [im1 out1 saves1]. run_engine; reflexivity.
Qed.

(** A file that is read and not skipped is recorded as its conversion
    ends: among the converted files, or among the errors when the
    conversion raised. *)
Lemma loop_body_conversion_outcome
    (o : Options) (b : Batch) (up : Upload) (img : Image) :
  read_image_from_upload P (up_contents up) = Ok img →
  Registry.normalize_format_name (have_fmt o)
  = Registry.normalize_format_name (image_format_from_pil img (up_name up))
  ∨ force_convert o = true →
  loop_body P o b up
  = match fst (convert_image_to_bytes P img (want_fmt o) (up_name up)
                 (jpeg_rgb o) (Some (ico_sizes_opt o))
                 (preserve_animation_opt o)) with
    | Ok (out_bytes, out_filename) =>
        add_converted b
          (out_bytes, out_filename,
           Registry.normalize_format_name
             (image_format_from_pil img (up_name up)))
    | Raise e => add_error b (up_name up, exn_msg e)
    end.
Proof.
  intros Hread Hgo. unfold loop_body. rewrite Hread.
  destruct Hgo as [-> | ->].
  - by rewrite bool_decide_eq_true_2.
  - by rewrite andb_false_r.
Qed.

(** C5: outside the JPEG and animated branches, when the first encoder
    call fails, the image is converted to RGBA and encoded once more,
    in the target format, or in PNG when the target is ICO; these are
    the only two encoder calls.  A failure of the conversion or of the
    second call is the outcome of the function, and the batch loop
    records it among the errors. *)
Theorem fallback_retries_once
    (img : Image) (target_format original_filename : pystr)
    (bg : Z * Z * Z) (sizes : list Sizes.size) (pres : bool)
    (buf1 : BytesIO) (e1 : exn) :
  let target := Registry.normalize_format_name target_format in
  let kw := ico_save_kwargs target (Some sizes) in
  let call1 := MkSaveCall img target kw in
  let run :=
    convert_image_to_bytes P img target_format original_filename bg
      (Some sizes) pres in
  target ≠ lit "JPEG" →
  animated_branch target img pres = false →
  pil_save P call1 (MkBytesIO [] 0) = (buf1, Some e1) →
  match pil_convert P img (lit "RGBA") with
  | Raise e => w_saves (snd run) = [call1] ∧ fst run = Raise e
  | Ok temp =>
      let call2 :=
        MkSaveCall temp
          (if bool_decide (target = lit "ICO") then lit "PNG" else target)
          kw in
      w_saves (snd run) = [call1; call2]
      ∧ fst run
        = match pil_save P call2 buf1 with
          | (buf2, None) =>
              Ok (bio_data buf2, out_filename_for original_filename target)
          | (_, Some e2) => Raise e2
          end
  end
  ∧ ∀ (have : pystr) (force : bool) (b : Batch) (contents : bytes)
      (e : exn),
      read_image_from_upload P contents = Ok img →
      Registry.normalize_format_name have
      = Registry.normalize_format_name
          (image_format_from_pil img original_filename)
      ∨ force = true →
      fst run = Raise e →
      loop_body P
        (MkOptions have target_format force pres bg sizes) b
        (MkUpload original_filename contents)
      = add_error b (original_filename, exn_msg e).
Proof.
  intros target kw call1 run Hjpeg Hbranch Hsave. split.
  - unfold run.
    rewrite (plain_branch_run img target_format original_filename bg
               (Some sizes) pres Hbranch).
    cbv zeta. fold target. rewrite (bool_decide_eq_false_2 _ Hjpeg).
    fold kw. fold call1. rewrite Hsave.
    destruct (pil_convert P img (lit "RGBA")) as [temp|e]; [|done].
    unfold retry_format.
    replace (if negb (bool_decide (target = lit "ICO")) then target
             else lit "PNG")
      with (if bool_decide (target = lit "ICO") then lit "PNG" else target)
      by by destruct (bool_decide (target = lit "ICO")).
    cbv zeta. by destruct (pil_save P _ buf1) as [buf2 [e2|]].
  - intros have force b contents e Hread Hgo Hraise.
    rewrite (loop_body_conversion_outcome
               (MkOptions have target_format force pres bg sizes) b
               (MkUpload original_filename contents) img Hread Hgo).
    cbn [want_fmt up_name jpeg_rgb ico_sizes_opt preserve_animation_opt].
    fold run. by rewrite Hraise.
Qed.

(** C6: for a JPEG target, an image whose mode is neither RGBA nor LA
    and which is not a palette image with a transparency entry is handed
    to the encoder as [img.convert("RGB")]; the background colour plays
    no part in the outcome. *)
Theorem opaque_image_not_composited
    (img : Image) (target_format original_filename : pystr)
    (bg bg' : Z * Z * Z) (sizes : option (list Sizes.size)) (pres : bool) :
  Registry.normalize_format_name target_format = lit "JPEG" →
  has_alpha_mode img = false →
  has_palette_transparency img = false →
  jpeg_image_to_save P img bg = pil_convert P img (lit "RGB")
  ∧ convert_image_to_bytes P img target_format original_filename bg sizes pres
    = convert_image_to_bytes P img target_format original_filename bg' sizes
        pres
  ∧ ∀ rgb, pil_convert P img (lit "RGB") = Ok rgb →
      head (w_saves (snd (convert_image_to_bytes P img target_format
                            original_filename bg sizes pres)))
      = Some (MkSaveCall rgb (lit "JPEG") ∅).
Proof.
  intros Ht Halpha Hpal.
  assert (Hsrc : ∀ c, jpeg_image_to_save P img c
                      = pil_convert P img (lit "RGB")).
  { intros c. unfold jpeg_image_to_save. by rewrite Halpha, Hpal. }
  assert (Hbranch : animated_branch
            (Registry.normalize_format_name target_format) img pres = false).
  { by rewrite Ht. }
  split; [apply Hsrc|]. split.
  - rewrite !(plain_branch_run img target_format original_filename _ sizes
                pres Hbranch).
    cbv zeta. by rewrite Ht, !Hsrc.
  - intros rgb Hrgb.
    rewrite (plain_branch_run img target_format original_filename bg sizes
               pres Hbranch).
    cbv zeta. rewrite Ht, Hsrc, Hrgb.
    change (bool_decide (lit "JPEG" = lit "JPEG")) with true. cbv iota.
    change (ico_save_kwargs (lit "JPEG") sizes) with (∅ : gmap string kwval).
    destruct (pil_save P _ _) as [buf1 [e1|]]; [|done].
    destruct (pil_convert P rgb (lit "RGBA")) as [temp|e]; [|done].
    by destruct (pil_save P _ buf1) as [buf2 [e2|]].
Qed.

(** C7, as the code has it: when reading or saving the frames fails, the
    image, at the frame [seek] left it on, is converted to RGBA and saved
    alone as a GIF.  When that succeeds the function returns bytes and a
    file name as any conversion does, and the batch loop records the
    file among the converted files. *)
Theorem animation_fallback_is_silent
    (img : Image) (target_format original_filename : pystr)
    (bg : Z * Z * Z) (sizes : list Sizes.size) (pres : bool)
    (e1 : exn) (w1 : World) :
  let target := Registry.normalize_format_name target_format in
  let run :=
    convert_image_to_bytes P img target_format original_filename bg
      (Some sizes) pres in
  animated_branch target img pres = true →
  save_animation P (length (im_frames img))
    (default (PInt 0) (im_info img !! "loop"))
    (default (PInt 100) (im_info img !! "duration"))
    (initial_world img) = (Raise e1, w1) →
  match pil_convert P (w_img w1) (lit "RGBA") with
  | Raise e => fst run = Raise e
  | Ok temp =>
      let call := MkSaveCall temp (lit "GIF") ∅ in
      w_saves (snd run) = w_saves w1 ++ [call]
      ∧ match pil_save P call (w_out w1) with
        | (_, Some e2) => fst run = Raise e2
        | (buf2, None) =>
            fst run
            = Ok (bio_data buf2, out_filename_for original_filename target)
            ∧ ∀ (have : pystr) (force : bool) (b : Batch)
                (contents : bytes),
                read_image_from_upload P contents = Ok img →
                Registry.normalize_format_name have
                = Registry.normalize_format_name
                    (image_format_from_pil img original_filename)
                ∨ force = true →
                loop_body P
                  (MkOptions have target_format force pres bg sizes) b
                  (MkUpload original_filename contents)
                = add_converted b
                    (bio_data buf2,
                     out_filename_for original_filename target,
                     Registry.normalize_format_name
                       (image_format_from_pil img original_filename))
        end
  end.
Proof.
  intros target run Hbranch Hfail.
  assert (Hrun : run = _) by
    exact (animated_branch_run img target_format original_filename bg
             (Some sizes) pres Hbranch).
  cbv zeta in Hrun. rewrite Hfail in Hrun.
  destruct (pil_convert P (w_img w1) (lit "RGBA")) as [temp|e];
    [|by rewrite Hrun].
  cbv zeta. destruct (pil_save P _ (w_out w1)) as [buf2 [e2|]].
  - by rewrite Hrun.
  - rewrite Hrun. repeat split.
    intros have force b contents Hread Hgo.
    rewrite (loop_body_conversion_outcome
               (MkOptions have target_format force pres bg sizes) b
               (MkUpload original_filename contents) img Hread Hgo).
    cbn [want_fmt up_name jpeg_rgb ico_sizes_opt preserve_animation_opt].
    fold run. by rewrite Hrun.
Qed.

End OrchestratorFacts.

(** ** The animated branch and its encoder call *)

Section AnimationFacts.

Context (P : Pillow).

(** Reading the frames calls no encoder and leaves the buffer alone. *)
Lemma collect_frames_quiet (ks : list nat) (frames : list Image)
    (w : World) :
  w_saves (snd (collect_frames P ks frames w)) = w_saves w
  ∧ w_out (snd (collect_frames P ks frames w)) = w_out w.
Proof.
  revert frames w. induction ks as [|k ks IH]; intros frames w; [done|].
  cbn [collect_frames]. rewrite !bind_run. unfold seek.
  destruct (im_frames (w_img w) !! k) as [f|]; [|done].
  unfold convert. rewrite !bind_run. cbn [deref w_img]. cbv beta iota.
  unfold lift. destruct (pil_convert P _ _) as [c|e]; [|done].
  cbv beta iota. unfold mret, M_ret. cbv beta iota.
  rewrite !bind_run. cbn [deref]. cbv beta iota.
  by destruct (IH (frames ++ [c])
                 (MkWorld (MkImage (im_format (w_img w)) f
                             (im_frames (w_img w)) k) (w_out w) (w_saves w)))
    as [-> ->].
Qed.

(** The frames, read in order: frame [k] is the image positioned at [k],
    converted to RGBA. *)
Lemma collect_frames_in_order (img : Image) (ks : list nat)
    (cs frames : list Image) (w : World) :
  im_format (w_img w) = im_format img →
  im_frames (w_img w) = im_frames img →
  Forall2 (λ k c, ∃ f, im_frames img !! k = Some f
                       ∧ pil_convert P
                           (MkImage (im_format img) f (im_frames img) k)
                           (lit "RGBA") = Ok c) ks cs →
  fst (collect_frames P ks frames w) = Ok (frames ++ cs).
Proof.
  intros Hfmt Hfr Hall. revert frames w Hfmt Hfr.
  induction Hall as [|k c ks cs (f & Hk & Hc) _ IH]; intros frames w Hfmt Hfr.
  - simpl. by rewrite app_nil_r.
  - cbn [collect_frames]. rewrite !bind_run. unfold seek.
    rewrite Hfr, Hk. unfold convert. rewrite !bind_run.
    cbn [deref w_img]. cbv beta iota. unfold lift.
    rewrite Hfmt, Hc. cbv beta iota. unfold mret, M_ret.
    cbv beta iota. rewrite !bind_run. cbn [deref]. cbv beta iota.
    rewrite IH by done. by rewrite <- app_assoc.
Qed.

(** What C4 says and the code does: when every frame converts, the
    source frames reach the encoder in their order, each converted to
    RGBA, in one call with the loop count of the source (0 when it
    declares none) and disposal 2.  The duration is one value for the
    whole call: that of the frame the image was on at entry (100 when it
    declares none). *)
Lemma animation_encoder_call
    (img : Image) (target_format original_filename : pystr)
    (bg : Z * Z * Z) (sizes : option (list Sizes.size)) (pres : bool)
    (first : Image) (rest : list Image) :
  animated_branch (Registry.normalize_format_name target_format) img pres
  = true →
  Forall2 (λ k c, ∃ f, im_frames img !! k = Some f
                       ∧ pil_convert P
                           (MkImage (im_format img) f (im_frames img) k)
                           (lit "RGBA") = Ok c)
          (seq 0 (length (im_frames img))) (first :: rest) →
  head (w_saves (snd (convert_image_to_bytes P img target_format
                        original_filename bg sizes pres)))
  = Some (MkSaveCall first (lit "GIF")
            (animated_kwargs rest
               (default (PInt 0) (im_info img !! "loop"))
               (default (PInt 100) (im_info img !! "duration")))).
Proof.
  intros Hbranch Hall.
  rewrite (animated_branch_run P img target_format original_filename bg
             sizes pres Hbranch).
  cbv zeta. unfold save_animation. rewrite bind_run.
  pose proof (collect_frames_in_order img _ _ [] (initial_world img)
                eq_refl eq_refl Hall) as Hfst.
  pose proof (collect_frames_quiet (seq 0 (length (im_frames img))) []
                (initial_world img)) as [Hsaves Hout].
  destruct (collect_frames P _ [] (initial_world img)) as [r w1].
  simpl in Hfst, Hsaves, Hout. subst r. cbn [app].
  unfold save at 1. rewrite bind_run. cbn [deref]. cbv beta iota.
  unfold encode. rewrite Hsaves, Hout.
  destruct (pil_save P _ _) as [buf [e|]];
    cbn [app w_img w_out w_saves]; [|reflexivity].
  destruct (pil_convert P (w_img w1) (lit "RGBA")) as [temp|e'];
    [|reflexivity].
  destruct (pil_save P _ buf) as [buf2 [e2|]]; reflexivity.
Qed.

End AnimationFacts.

(** ** The engine on concrete files *)

Example toy_open_photo :
  Toy.open (up_contents Toy.photo) = Ok Toy.photo_image.
Proof. reflexivity. Qed.

Example toy_open_anim : Toy.open (up_contents Toy.anim) = Ok Toy.anim_image.
Proof. reflexivity. Qed.

(** C4 fails on the code: a source of three frames that declare 100, 150
    and 200 is converted to GIF with preservation on.  The three frames
    reach the encoder in order, as RGBA, with loop 0 and disposal 2, but
    with the single duration 100 for the whole call: 150 and 200 are not
    handed over. *)
Theorem animated_gif_gets_one_duration :
  (λ f, fr_info f !! "duration") <$> im_frames Toy.anim_image
  = [Some (PInt 100); Some (PInt 150); Some (PInt 200)]
  ∧ w_saves (snd (convert_image_to_bytes (Toy.pillow Toy.accept_all)
                    Toy.anim_image (lit "GIF") (lit "anim.gif")
                    (255, 255, 255) None true))
    = [MkSaveCall (Toy.rgba 0 [Toy.px 1; Toy.px 1; Toy.px 1]) (lit "GIF")
         (animated_kwargs
            [Toy.rgba 1 [Toy.px 2; Toy.px 2; Toy.px 2];
             Toy.rgba 2 [Toy.px 3; Toy.px 3; Toy.px 3]]
            (PInt 0) (PInt 100))]
  ∧ animated_kwargs
      [Toy.rgba 1 [Toy.px 2; Toy.px 2; Toy.px 2];
       Toy.rgba 2 [Toy.px 3; Toy.px 3; Toy.px 3]]
      (PInt 0) (PInt 100) !! "duration"
    = Some (KVal (PInt 100)).
Proof. by vm_compute. Qed.

(** An ICO target, an encoder that takes RGBA only: the RGB photo is
    refused, converted and encoded again as PNG, in two calls. *)
Lemma fallback_retries_once_witness :
  w_saves (snd (convert_image_to_bytes (Toy.pillow Toy.only_rgba)
                  Toy.photo_image (lit "ico") (lit "photo.jpg")
                  (255, 255, 255) (Some [(16, 16)]) true))
  = [MkSaveCall Toy.photo_image (lit "ICO")
       (<["sizes" := KSizes [(16, 16)]]> ∅);
     MkSaveCall (Toy.rgba 0 [Toy.px 1; Toy.px 2; Toy.px 3]) (lit "PNG")
       (<["sizes" := KSizes [(16, 16)]]> ∅)]
  ∧ fst (convert_image_to_bytes (Toy.pillow Toy.only_rgba)
           Toy.photo_image (lit "ico") (lit "photo.jpg")
           (255, 255, 255) (Some [(16, 16)]) true)
    = Ok ([Toy.px 1; Toy.px 2; Toy.px 3], lit "photo.ico").
Proof.
  exact (proj1 (fallback_retries_once (Toy.pillow Toy.only_rgba)
                  Toy.photo_image (lit "ico") (lit "photo.jpg")
                  (255, 255, 255) [(16, 16)] true
                  (MkBytesIO [] 0) Toy.refused
                  ltac:(discriminate) eq_refl eq_refl)).
Defined.

(** An RGB photo to JPEG: white or black background, the same outcome. *)
Lemma opaque_image_not_composited_witness :
  convert_image_to_bytes (Toy.pillow Toy.accept_all) Toy.photo_image
    (lit "jpg") (lit "photo.png") (255, 255, 255) None true
  = convert_image_to_bytes (Toy.pillow Toy.accept_all) Toy.photo_image
      (lit "jpg") (lit "photo.png") (0, 0, 0) None true.
Proof.
  exact (proj1 (proj2 (opaque_image_not_composited
                         (Toy.pillow Toy.accept_all) Toy.photo_image
                         (lit "jpg") (lit "photo.png")
                         (255, 255, 255) (0, 0, 0) None true
                         eq_refl eq_refl eq_refl))).
Defined.

(** An encoder without multi-frame support: the animation is replaced by
    one frame and the function returns as on success. *)
Lemma animation_fallback_is_silent_witness :
  fst (convert_image_to_bytes (Toy.pillow Toy.no_save_all) Toy.anim_image
         (lit "gif") (lit "anim.gif") (255, 255, 255) (Some [(16, 16)]) true)
  = Ok ([Toy.px 3; Toy.px 3; Toy.px 3], lit "anim.gif").
Proof.
  exact (proj1 (proj2 (animation_fallback_is_silent
                         (Toy.pillow Toy.no_save_all) Toy.anim_image
                         (lit "gif") (lit "anim.gif") (255, 255, 255)
                         [(16, 16)] true Toy.refused
                         (snd (save_animation (Toy.pillow Toy.no_save_all) 3
                                 (PInt 0) (PInt 100)
                                 (initial_world Toy.anim_image)))
                         eq_refl eq_refl))).
Defined.

(** C7 fails as stated: the encoder refuses the multi-frame call, one
    frame is saved instead, and the batch holds one converted file, no
    skip and no error.  It is the record a full conversion leaves, apart
    from the bytes. *)
Lemma animation_loss_not_reported :
  main_loop (Toy.pillow Toy.no_save_all) (Toy.options "GIF" "GIF" false)
    [Toy.anim]
  = MkBatch [([Toy.px 3; Toy.px 3; Toy.px 3], lit "anim.gif", lit "GIF")]
      [] []
  ∧ main_loop (Toy.pillow Toy.accept_all) (Toy.options "GIF" "GIF" false)
      [Toy.anim]
    = MkBatch [([Toy.px 1; Toy.px 1; Toy.px 1], lit "anim.gif", lit "GIF")]
        [] [].
Proof. by vm_compute. Qed.

(** * Further properties *)

(** ** The registry, continued *)

Module RegistryMore.
Import Registry RegistryFacts.

Local Open Scope N_scope.

(** On ASCII, either change of case keeps whitespace whitespace, and lower
    case absorbs both. *)
Lemma ascii_case_absorb (c : N) :
  c < 128 →
  py_isspace (upper_char c) = py_isspace c
  ∧ py_isspace (lower_char c) = py_isspace c
  ∧ lower_char (upper_char c) = lower_char c
  ∧ lower_char (lower_char c) = lower_char c.
Proof.
  intros H.
  assert (Hall : forallb
            (λ c, bool_decide (py_isspace (upper_char c) = py_isspace c)
                  && bool_decide (py_isspace (lower_char c) = py_isspace c)
                  && bool_decide (lower_char (upper_char c) = lower_char c)
                  && bool_decide (lower_char (lower_char c) = lower_char c))
            (N.of_nat <$> seq 0 128) = true) by (vm_compute; reflexivity).
  rewrite forallb_forall in Hall.
  assert (Hin : In c (N.of_nat <$> seq 0 128)).
  { apply list_elem_of_In, list_elem_of_fmap. exists (N.to_nat c).
    split; [lia|]. apply list_elem_of_In, in_seq. lia. }
  specialize (Hall c Hin).
  repeat (apply andb_prop in Hall as [Hall ?]).
  repeat match goal with
  | H : bool_decide _ = true |- _ => apply bool_decide_eq_true_1 in H
  end.
  done.
Qed.

(** The key under which a name is looked up. *)
Lemma key_of_upper (s : pystr) :
  ascii_str s → py_lower (py_strip (py_upper s)) = py_lower (py_strip s).
Proof.
  intros Hs. unfold py_upper, py_lower.
  rewrite strip_fmap.
  - rewrite <- list_fmap_compose. apply Forall_fmap_ext_1.
    pose proof (strip_Forall _ _ Hs) as Ht.
    eapply List.Forall_impl; [|exact Ht]. intros c Hc. simpl in Hc |- *.
    by destruct (ascii_case_absorb c Hc) as (_ & _ & ? & _).
  - eapply List.Forall_impl; [|exact Hs]. intros c Hc. simpl in Hc.
    by destruct (ascii_case_absorb c Hc) as (? & _).
Qed.

Lemma key_of_lower (s : pystr) :
  ascii_str s → py_lower (py_strip (py_lower s)) = py_lower (py_strip s).
Proof.
  intros Hs. unfold py_lower.
  rewrite strip_fmap.
  - rewrite <- list_fmap_compose. apply Forall_fmap_ext_1.
    pose proof (strip_Forall _ _ Hs) as Ht.
    eapply List.Forall_impl; [|exact Ht]. intros c Hc. simpl in Hc |- *.
    by destruct (ascii_case_absorb c Hc) as (_ & _ & _ & ?).
  - eapply List.Forall_impl; [|exact Hs]. intros c Hc. simpl in Hc.
    by destruct (ascii_case_absorb c Hc) as (_ & ? & _).
Qed.

(** The key of a name that is not in the table survives upper case:
    stripping the upper-cased key changes nothing, lower-casing it gives
    the key back. *)
Lemma unknown_key_stable (s : pystr) :
  ascii_str s →
  let key := py_lower (py_strip s) in
  py_strip (py_upper key) = py_upper key
  ∧ py_lower (py_upper key) = key.
Proof.
  intros Hs key. unfold key.
  assert (Hfacts : Forall (λ c, py_isspace (upper_char (lower_char c))
                                = py_isspace c
                                ∧ lower_char (upper_char (lower_char c))
                                  = lower_char c) (py_strip s)).
  { pose proof (strip_Forall _ _ Hs) as Ht.
    eapply List.Forall_impl; [|exact Ht]. intros c Hc. simpl in Hc.
    by destruct (ascii_case_facts c Hc) as (_ & _ & ? & ?). }
  split.
  - unfold py_upper, py_lower. rewrite <- list_fmap_compose.
    rewrite strip_fmap, strip_idem; [done|].
    eapply List.Forall_impl; [|exact Hfacts]. by intros c (? & _).
  - unfold py_upper, py_lower. rewrite <- !list_fmap_compose.
    apply Forall_fmap_ext_1. eapply List.Forall_impl; [|exact Hfacts].
    by intros c (_ & ?).
Qed.

(** Normalizing a normalized ASCII name changes nothing. *)
Lemma normalize_again (s : pystr) :
  ascii_str s →
  normalize_format_name (normalize_format_name s) = normalize_format_name s.
Proof.
  intros Hs. rewrite (normalize_unfold s), mapping_alias.
  destruct (alias_of (py_lower (py_strip s))) as [f|] eqn:Ekey.
  { apply normalize_fixes_format. }
  cbn [fmap option_fmap option_map default]. rewrite normalize_unfold.
  destruct (unknown_key_stable s Hs) as [-> ->].
  by rewrite mapping_alias, Ekey.
Qed.

Lemma alias_of_lower_name (f : ImageFormat) :
  alias_of (py_lower (format_name f)) = Some f.
Proof. by destruct f. Qed.

(** X1: a name of the table, in any case and with whitespace around it,
    gets the extension of its format: [.jpg] for jpg and jpeg, [.tiff]
    for tif and tiff, and so on. *)
Theorem extension_of_known_name (name : pystr) (f : ImageFormat) :
  spec_normalize name = Some f →
  get_extension_for_format name = extension_of f.
Proof.
  unfold spec_normalize, get_extension_for_format. intros H.
  rewrite normalize_unfold, mapping_alias, H. by destruct f.
Qed.

Lemma extension_of_known_name_witness :
  get_extension_for_format (lit "  JpEg ") = lit ".jpg".
Proof.
  exact (extension_of_known_name (lit "  JpEg ") JPEG eq_refl).
Defined.

(** X2: on ASCII names normalization does not see case or surrounding
    whitespace: the upper-cased, the lower-cased and the stripped name
    normalize as the name itself. *)
Theorem normalize_ignores_case_and_space (s : pystr) :
  ascii_str s →
  normalize_format_name (py_upper s) = normalize_format_name s
  ∧ normalize_format_name (py_lower s) = normalize_format_name s
  ∧ normalize_format_name (py_strip s) = normalize_format_name s.
Proof.
  intros Hs. rewrite !normalize_unfold. split; [|split].
  - by rewrite key_of_upper.
  - by rewrite key_of_lower.
  - by rewrite strip_idem.
Qed.

Lemma normalize_ignores_case_and_space_witness :
  normalize_format_name (py_upper (lit " Tif ")) = lit "TIFF"
  ∧ normalize_format_name (py_lower (lit " Tif ")) = lit "TIFF"
  ∧ normalize_format_name (py_strip (lit " Tif ")) = lit "TIFF".
Proof.
  assert (H : ascii_str (lit " Tif ")).
  { repeat (constructor; [reflexivity|]). constructor. }
  exact (normalize_ignores_case_and_space (lit " Tif ") H).
Defined.

(** X3: an ASCII name normalizes to one of the seven format names only
    if it is in the table: no unknown name is taken for a known format. *)
Theorem unknown_name_stays_unknown (s : pystr) (f : ImageFormat) :
  ascii_str s →
  normalize_format_name s = format_name f →
  spec_normalize s = Some f.
Proof.
  intros Hs. rewrite normalize_unfold, mapping_alias. unfold spec_normalize.
  destruct (alias_of (py_lower (py_strip s))) as [g|] eqn:Ekey.
  - cbn [fmap option_fmap option_map default]. intros Hfg.
    f_equal. by destruct g, f.
  - cbn [fmap option_fmap option_map default]. intros Hup.
    destruct (unknown_key_stable s Hs) as [_ Hlow].
    rewrite Hup in Hlow. rewrite <- Hlow, alias_of_lower_name in Ekey.
    discriminate Ekey.
Qed.

Lemma unknown_name_stays_unknown_witness :
  spec_normalize (lit "JPG") = Some JPEG.
Proof.
  assert (H : ascii_str (lit "JPG")).
  { repeat (constructor; [reflexivity|]). constructor. }
  exact (unknown_name_stays_unknown (lit "JPG") JPEG H eq_refl).
Defined.

(** X4: on ASCII names the extension of a name is the extension of its
    normal form: [convert_image_to_bytes] may pass the normalized target
    to [get_extension_for_format], which normalizes again. *)
Theorem extension_of_normalized (s : pystr) :
  ascii_str s →
  get_extension_for_format (normalize_format_name s)
  = get_extension_for_format s.
Proof.
  intros Hs. unfold get_extension_for_format. by rewrite normalize_again.
Qed.

Lemma extension_of_normalized_witness :
  get_extension_for_format (normalize_format_name (lit "mpo"))
  = get_extension_for_format (lit "mpo").
Proof.
  assert (H : ascii_str (lit "mpo")).
  { repeat (constructor; [reflexivity|]). constructor. }
  exact (extension_of_normalized (lit "mpo") H).
Defined.

End RegistryMore.

(** ** Icon sizes, continued *)

Module SizesMore.
Import Sizes SizesFacts.

Local Open Scope Z_scope.

Lemma parse_loop_positive_squares (parts : list pystr) (sizes out : list size) :
  Forall positive_square sizes →
  parse_loop parts sizes = Ok out →
  Forall positive_square out.
Proof.
  revert sizes. induction parts as [|p ps IH]; intros sizes Hs.
  - by intros [= <-].
  - cbn [parse_loop]. destruct (py_int p) as [val|e]; [|done]. simpl.
    apply IH. destruct (0 <? val) eqn:E; [|done].
    apply Forall_app. split; [done|]. constructor; [|constructor].
    split; [done|]. by apply Z.ltb_lt.
Qed.

Lemma parse_custom_sizes_positive_squares (text : pystr) :
  Forall positive_square (parse_custom_sizes text).
Proof.
  unfold parse_custom_sizes.
  destruct (parse_loop (parts_of text) []) as [out|e] eqn:E; [|constructor].
  eapply parse_loop_positive_squares; [|exact E]. constructor.
Qed.

(** X5: whatever the preset and the custom text, the sizes [main] hands
    to the conversion are not empty and are all positive squares. *)
Theorem prepared_sizes_usable (ico_preset custom_sizes_text : pystr) :
  prepare_ico_sizes ico_preset custom_sizes_text ≠ []
  ∧ Forall positive_square (prepare_ico_sizes ico_preset custom_sizes_text).
Proof.
  assert (Hconst : ∀ l : list size,
            forallb (λ s, (fst s =? snd s) && (0 <? fst s)) l = true →
            Forall positive_square l).
  { intros l Hl. apply List.Forall_forall. intros s Hs.
    rewrite forallb_forall in Hl. apply Hl in Hs. apply andb_prop in Hs as [H1 H2].
    split; [by apply Z.eqb_eq | by apply Z.ltb_lt]. }
  pose proof (parse_custom_sizes_positive_squares custom_sizes_text) as Hp.
  unfold prepare_ico_sizes.
  destruct (py_startswith ico_preset (lit "Default")
            || py_startswith ico_preset (lit "All"));
    [split; [discriminate | by apply Hconst]|].
  destruct (py_startswith ico_preset (lit "Small"));
    [split; [discriminate | by apply Hconst]|].
  destruct (py_startswith ico_preset (lit "Medium"));
    [split; [discriminate | by apply Hconst]|].
  destruct (py_startswith ico_preset (lit "Large"));
    [split; [discriminate | by apply Hconst]|].
  destruct (py_startswith ico_preset (lit "Custom"));
    [|split; [discriminate | by apply Hconst]].
  destruct (parse_custom_sizes custom_sizes_text) as [|s l].
  - split; [discriminate | by apply Hconst].
  - split; [discriminate | done].
Qed.

Lemma split_commas_nonempty (s : pystr) : split_commas s ≠ [].
Proof.
  destruct s as [|c r]; [done|]. simpl.
  destruct (c =? 44)%N; [done|]. by destruct (split_commas r).
Qed.

(** Splitting at commas splits a text joined by a comma. *)
Lemma split_commas_app (a b : pystr) :
  split_commas (a ++ [44%N] ++ b) = split_commas a ++ split_commas b.
Proof.
  induction a as [|c a IH]; [done|].
  cbn [app split_commas] in *. destruct (c =? 44)%N.
  - by rewrite IH.
  - rewrite IH. pose proof (split_commas_nonempty a).
    by destruct (split_commas a).
Qed.

Lemma parts_of_app (a b : pystr) :
  parts_of (a ++ [44%N] ++ b) = parts_of a ++ parts_of b.
Proof. unfold parts_of. by rewrite split_commas_app, omap_app. Qed.

(** X6: parsing follows the commas: when every token of two texts is an
    integer, the text made of both with a comma between them parses to
    the sizes of the first followed by the sizes of the second; when one
    token of either is not, it parses to nothing. *)
Theorem parse_custom_sizes_joined (a b : pystr) :
  parse_custom_sizes (a ++ [44%N] ++ b)
  = if forallb numeric (parts_of a) && forallb numeric (parts_of b)
    then parse_custom_sizes a ++ parse_custom_sizes b
    else [].
Proof.
  unfold parse_custom_sizes.
  rewrite !parse_loop_all_or_nothing, parts_of_app, forallb_app, omap_app.
  destruct (forallb numeric (parts_of a));
    by destruct (forallb numeric (parts_of b)).
Qed.















End SizesMore.

(** ** The background colour *)

Section ColourFacts.

Local Open Scope Z_scope.

Lemma is_hex_small (c : N) : is_hex c = true → (c < 128)%N.
Proof.
  unfold is_hex, digit_value.
  destruct ((48 <=? c) && (c <=? 57))%N eqn:E1.
  { apply andb_prop in E1 as [_ H]. apply N.leb_le in H. lia. }
  destruct ((97 <=? c) && (c <=? 122))%N eqn:E2.
  { apply andb_prop in E2 as [_ H]. apply N.leb_le in H. lia. }
  destruct ((65 <=? c) && (c <=? 90))%N eqn:E3; [|done].
  apply andb_prop in E3 as [_ H]. apply N.leb_le in H. lia.
Qed.

Lemma in_ascii_range (c : N) : (c < 128)%N → In c (N.of_nat <$> seq 0 128).
Proof.
  intros H. apply list_elem_of_In, list_elem_of_fmap.
  exists (N.to_nat c). split; [lia|]. apply list_elem_of_In, in_seq. lia.
Qed.

Lemma py_int16_pair (h l : N) :
  is_hex h = true → is_hex l = true →
  py_int16 [h; l] = Ok (hex_pair h l) ∧ 0 <= hex_pair h l <= 255.
Proof.
  intros Hh Hl.
  assert (Hall : forallb (λ h, forallb (λ l,
              implb (is_hex h && is_hex l) (pair_read h l))
              (N.of_nat <$> seq 0 128)) (N.of_nat <$> seq 0 128) = true)
    by (vm_compute; reflexivity).
  rewrite forallb_forall in Hall.
  specialize (Hall h (in_ascii_range h (is_hex_small h Hh))).
  rewrite forallb_forall in Hall.
  specialize (Hall l (in_ascii_range l (is_hex_small l Hl))).
  rewrite Hh, Hl in Hall. simpl in Hall. unfold pair_read in Hall.
  destruct (py_int16 [h; l]) as [v|e]; [|done].
  apply andb_prop in Hall as [Hall H3]. apply andb_prop in Hall as [H1 H2].
  apply Z.eqb_eq in H1. apply Z.leb_le in H2, H3. subst v. split; [done|lia].
Qed.

Lemma is_hex_not_hash (c : N) : is_hex c = true → (c =? 35)%N = false.
Proof.
  intros H. destruct (N.eqb_spec c 35) as [->|]; [|done].
  by vm_compute in H.
Qed.

(** X8: a colour written as a hash sign and six hexadecimal digits, as
    the colour picker gives it, always yields the three components, each
    the value of its two digits and between 0 and 255. *)
Theorem jpeg_rgb_of_hex_colour (h1 l1 h2 l2 h3 l3 : N) :
  is_hex h1 = true → is_hex l1 = true →
  is_hex h2 = true → is_hex l2 = true →
  is_hex h3 = true → is_hex l3 = true →
  parse_jpeg_rgb (35%N :: [h1; l1; h2; l2; h3; l3])
  = Ok (hex_pair h1 l1, hex_pair h2 l2, hex_pair h3 l3)
  ∧ 0 <= hex_pair h1 l1 <= 255
  ∧ 0 <= hex_pair h2 l2 <= 255
  ∧ 0 <= hex_pair h3 l3 <= 255.
Proof.
  intros H1 H1' H2 H2' H3 H3'.
  destruct (py_int16_pair h1 l1 H1 H1') as [E1 B1].
  destruct (py_int16_pair h2 l2 H2 H2') as [E2 B2].
  destruct (py_int16_pair h3 l3 H3 H3') as [E3 B3].
  repeat split; try lia.
  unfold parse_jpeg_rgb. cbn [lstrip_hashes].
  change (35 =? 35)%N with true. cbv iota.
  cbn [lstrip_hashes]. rewrite (is_hex_not_hash h1 H1).
  cbn [take drop]. by rewrite E1, E2, E3.
Qed.

Lemma jpeg_rgb_of_hex_colour_witness :
  parse_jpeg_rgb (lit "#FFa010") = Ok (255, 160, 16).
Proof.
  exact (proj1 (jpeg_rgb_of_hex_colour 70 70 97 48 49 48
                  eq_refl eq_refl eq_refl eq_refl eq_refl eq_refl)).
Defined.

End ColourFacts.

(** ** File names *)

Section NameFacts.

Local Open Scope Z_scope.

(** Where [rfind] lands: on the default when the character is absent,
    otherwise on a position after which the character does not occur. *)
Lemma rfind_from_spec (c : N) (p : pystr) (i last : Z) :
  last < i →
  (rfind_from c p i last = last ∧ c ∉ p)
  ∨ (i <= rfind_from c p i last < i + Z.of_nat (length p)
     ∧ c ∉ drop (Z.to_nat (rfind_from c p i last - i + 1)) p).
Proof.
  revert i last. induction p as [|x r IH]; intros i last Hlt.
  - left. split; [done|]. apply not_elem_of_nil.
  - cbn [rfind_from length].
    destruct (N.eqb_spec x c) as [->|Hne].
    + destruct (IH (i + 1) i ltac:(lia)) as [[Hk Hnot]|[Hk Hnot]].
      * right. rewrite Hk. split; [lia|].
        by replace (Z.to_nat (i - i + 1)) with 1%nat by lia.
      * right. split; [lia|].
        replace (Z.to_nat (rfind_from c r (i + 1) i - i + 1))
          with (S (Z.to_nat (rfind_from c r (i + 1) i - (i + 1) + 1)))
          by lia.
        done.
    + destruct (IH (i + 1) last ltac:(lia)) as [[Hk Hnot]|[Hk Hnot]].
      * left. split; [done|]. rewrite not_elem_of_cons. by split.
      * right. split; [lia|].
        replace (Z.to_nat (rfind_from c r (i + 1) last - i + 1))
          with (S (Z.to_nat (rfind_from c r (i + 1) last - (i + 1) + 1)))
          by lia.
        done.
Qed.

Lemma basename_no_separator (p : pystr) : 47%N ∉ py_basename p.
Proof.
  unfold py_basename, py_rfind.
  destruct (rfind_from_spec 47 p 0 (-1) ltac:(lia)) as [[-> H]|[_ H]].
  - done.
  - by replace (rfind_from 47 p 0 (-1) + 1)
      with (rfind_from 47 p 0 (-1) - 0 + 1) by lia.
Qed.

Lemma splitext_root_within (q : pystr) (c : N) :
  c ∉ q → c ∉ fst (py_splitext q).
Proof.
  intros H. unfold py_splitext.
  destruct (_ && _); [|done]. cbn [fst]. intros Hin. apply H.
  by apply (subseteq_take _ q) in Hin.
Qed.

Lemma extension_no_separator (f : Registry.ImageFormat) :
  47%N ∉ extension_of f.
Proof.
  destruct f; cbn [extension_of];
    match goal with
    | |- ?c ∉ ?l => apply (bool_decide_unpack (c ∉ l)); by vm_compute
    end.
Qed.

(** X9: for a target format of the table, the name of the output file is
    the name of the input file without its directories and its extension,
    followed by the extension of the format; it contains no path
    separator, whatever the input name. *)
Theorem output_name_has_no_directory
    (original_filename target_format : pystr) (f : Registry.ImageFormat) :
  Registry.spec_normalize target_format = Some f →
  out_filename_for original_filename
    (Registry.normalize_format_name target_format)
  = fst (py_splitext (py_basename original_filename)) ++ extension_of f
  ∧ 47%N ∉ out_filename_for original_filename
             (Registry.normalize_format_name target_format).
Proof.
  intros Hf.
  assert (Hn : Registry.normalize_format_name target_format
               = Registry.format_name f).
  { rewrite RegistryFacts.normalize_unfold, RegistryFacts.mapping_alias.
    unfold Registry.spec_normalize in Hf. by rewrite Hf. }
  assert (Hext : Registry.get_extension_for_format (Registry.format_name f)
                 = extension_of f) by by destruct f.
  unfold out_filename_for. rewrite Hn, Hext. split; [done|].
  rewrite not_elem_of_app. split.
  - apply splitext_root_within, basename_no_separator.
  - apply extension_no_separator.
Qed.

Lemma output_name_has_no_directory_witness :
  out_filename_for (lit "../up/load.d/photo.final.PNG")
    (Registry.normalize_format_name (lit "jpg"))
  = lit "photo.final.jpg"
  ∧ 47%N ∉ out_filename_for (lit "../up/load.d/photo.final.PNG")
             (Registry.normalize_format_name (lit "jpg")).
Proof.
  exact (output_name_has_no_directory (lit "../up/load.d/photo.final.PNG")
           (lit "jpg") Registry.JPEG eq_refl).
Defined.

End NameFacts.

(** ** The orchestrator, continued *)

Section OrchestratorMore.

Context (P : Pillow).

(** The animated save calls the encoder at most once, and exactly once
    when it returns. *)
Lemma save_animation_calls (n : nat) (loop duration : pyval) (w : World) :
  (w_saves (snd (save_animation P n loop duration w)) = w_saves w
   ∧ ∃ e, fst (save_animation P n loop duration w) = Raise e)
  ∨ ∃ call, w_saves (snd (save_animation P n loop duration w))
            = w_saves w ++ [call].
Proof.
  unfold save_animation. rewrite bind_run.
  destruct (collect_frames_quiet P (seq 0 n) [] w) as [Hs _].
  destruct (collect_frames P (seq 0 n) [] w) as [[[|first rest]|e] w1];
    cbn [snd] in Hs.
  - left. cbn. eauto.
  - right. unfold save. rewrite bind_run. cbn [deref]. cbv beta iota.
    unfold encode. rewrite Hs.
    destruct (pil_save P _ _) as [buf [e|]]; cbn; eauto.
  - left. cbn. eauto.
Qed.

(** Every run of the conversion: at most two encoder calls; and when it
    returns, the name it returns is made of the input name and the
    target alone, the bytes are the contents of the buffer, and the
    encoder was called. *)
Lemma convert_run_facts
    (img : Image) (target_format original_filename : pystr)
    (bg : Z * Z * Z) (sizes : option (list Sizes.size)) (pres : bool) :
  let run :=
    convert_image_to_bytes P img target_format original_filename bg sizes
      pres in
  (length (w_saves (snd run)) ≤ 2)%nat
  ∧ ∀ out_bytes out_filename,
      fst run = Ok (out_bytes, out_filename) →
      out_filename
      = out_filename_for original_filename
          (Registry.normalize_format_name target_format)
      ∧ out_bytes = bio_data (w_out (snd run))
      ∧ w_saves (snd run) ≠ [].
Proof.
  intros run. unfold run.
  destruct (animated_branch (Registry.normalize_format_name target_format)
              img pres) eqn:Hbranch.
  - rewrite (animated_branch_run P img target_format original_filename bg
               sizes pres Hbranch).
    cbv zeta.
    destruct (save_animation_calls (length (im_frames img))
                (default (PInt 0) (im_info img !! "loop"))
                (default (PInt 100) (im_info img !! "duration"))
                (initial_world img)) as [[Hs [e He]]|[call Hs]];
      destruct (save_animation P _ _ _ _) as [[[]|e1] w1];
      cbn [fst snd initial_world w_saves app] in *; try discriminate;
      rewrite ?Hs.
    + destruct (pil_convert P (w_img w1) (lit "RGBA")) as [temp|e'].
      * destruct (pil_save P _ (w_out w1)) as [buf2 [e2|]];
          cbn [fst snd w_saves w_out bio_data app length];
          (split; [lia|]); intros ? ?; intros [= <- <-]; done.
      * cbn [fst snd]. rewrite Hs. split; [cbn; lia | done].
    + cbn [fst snd w_saves w_out bio_data app length].
      split; [lia|]. intros ? ?; intros [= <- <-]. done.
    + destruct (pil_convert P (w_img w1) (lit "RGBA")) as [temp|e'].
      * destruct (pil_save P _ (w_out w1)) as [buf2 [e2|]];
          cbn [fst snd w_saves w_out bio_data app length];
          (split; [lia|]); intros ? ?; intros [= <- <-]; done.
      * cbn [fst snd]. rewrite Hs. split; [cbn; lia | done].
  - rewrite (plain_branch_run P img target_format original_filename bg
               sizes pres Hbranch).
    cbv zeta.
    destruct (if bool_decide _ then _ else _) as [src|e];
      [|split; [cbn; lia | done]].
    destruct (pil_save P _ _) as [buf1 [e1|]].
    + destruct (pil_convert P src (lit "RGBA")) as [temp|e'];
        [|split; [cbn; lia | done]].
      destruct (pil_save P _ buf1) as [buf2 [e2|]];
        cbn [fst snd w_saves w_out bio_data length];
        (split; [lia|]); intros ? ?; intros [= <- <-]; done.
    + cbn [fst snd w_saves w_out bio_data length].
      split; [lia|]. intros ? ?; intros [= <- <-]. done.
Qed.

(** X10: when a conversion returns, the file name it returns depends on
    the input name and the target format alone, not on the image or on
    what the encoder did, and the bytes it returns are all the output
    buffer holds. *)
Theorem returned_name_and_bytes
    (img : Image) (target_format original_filename : pystr)
    (bg : Z * Z * Z) (sizes : option (list Sizes.size)) (pres : bool)
    (out_bytes : bytes) (out_filename : pystr) :
  fst (convert_image_to_bytes P img target_format original_filename bg
         sizes pres) = Ok (out_bytes, out_filename) →
  out_filename
  = out_filename_for original_filename
      (Registry.normalize_format_name target_format)
  ∧ out_bytes
    = bio_data (w_out (snd (convert_image_to_bytes P img target_format
                              original_filename bg sizes pres))).
Proof.
  intros H.
  destruct (convert_run_facts img target_format original_filename bg sizes
              pres) as [_ Hok].
  by destruct (Hok _ _ H) as (? & ? & _).
Qed.

(** X11: a conversion calls the encoder at most twice, whatever the
    image, the target and the answers of Pillow; and it does not return
    without having called it. *)
Theorem encoder_called_once_or_twice
    (img : Image) (target_format original_filename : pystr)
    (bg : Z * Z * Z) (sizes : option (list Sizes.size)) (pres : bool) :
  let run :=
    convert_image_to_bytes P img target_format original_filename bg sizes
      pres in
  (length (w_saves (snd run)) ≤ 2)%nat
  ∧ ((∃ r, fst run = Ok r) → (1 ≤ length (w_saves (snd run)))%nat).
Proof.
  intros run.
  destruct (convert_run_facts img target_format original_filename bg sizes
              pres) as [Hle Hok].
  split; [exact Hle|]. intros [[b n] Hr].
  destruct (Hok b n Hr) as (_ & _ & Hne). fold run in Hne.
  destruct (w_saves (snd run)); [done | cbn; lia].
Qed.

(** X12: outside the animated branch the image object is left as it
    was: the conversion does not move it to another frame. *)
Theorem plain_conversion_keeps_position
    (img : Image) (target_format original_filename : pystr)
    (bg : Z * Z * Z) (sizes : option (list Sizes.size)) (pres : bool) :
  animated_branch (Registry.normalize_format_name target_format) img pres
  = false →
  w_img (snd (convert_image_to_bytes P img target_format original_filename
                bg sizes pres)) = img.
Proof.
  intros Hbranch.
  rewrite (plain_branch_run P img target_format original_filename bg sizes
             pres Hbranch).
  cbv zeta.
  destruct (if bool_decide _ then _ else _) as [src|e]; [|done].
  destruct (pil_save P _ _) as [buf1 [e1|]]; [|done].
  destruct (pil_convert P src (lit "RGBA")) as [temp|e']; [|done].
  by destruct (pil_save P _ buf1) as [buf2 [e2|]].
Qed.

(** X13: outside the animated branch every encoder call gets the same
    keyword arguments: the sizes when the target is ICO and sizes were
    given, also on the PNG retry, and none otherwise. *)
Theorem sizes_reach_the_encoder
    (img : Image) (target_format original_filename : pystr)
    (bg : Z * Z * Z) (sizes : list Sizes.size) (pres : bool)
    (call : SaveCall) :
  let target := Registry.normalize_format_name target_format in
  animated_branch target img pres = false →
  call ∈ w_saves (snd (convert_image_to_bytes P img target_format
                         original_filename bg (Some sizes) pres)) →
  sc_kwargs call
  = if bool_decide (target = lit "ICO") && negb (bool_decide (sizes = []))
    then {["sizes" := KSizes sizes]}
    else ∅.
Proof.
  intros target Hbranch.
  rewrite (plain_branch_run P img target_format original_filename bg
             (Some sizes) pres Hbranch).
  cbv zeta. fold target.
  assert (Hkw : ico_save_kwargs target (Some sizes)
                = if bool_decide (target = lit "ICO")
                     && negb (bool_decide (sizes = []))
                  then {["sizes" := KSizes sizes]} else ∅).
  { unfold ico_save_kwargs. destruct (bool_decide (target = lit "ICO"));
      [|done]. by destruct sizes. }
  rewrite Hkw.
  destruct (if bool_decide (target = lit "JPEG") then _ else _) as [src|e];
    [|by intros ?%elem_of_nil].
  destruct (pil_save P _ _) as [buf1 [e1|]].
  - destruct (pil_convert P src (lit "RGBA")) as [temp|e'].
    + destruct (pil_save P _ buf1) as [buf2 [e2|]]; cbn [snd w_saves];
        rewrite !elem_of_cons, elem_of_nil; intros [->|[->|[]]]; done.
    + cbn [snd w_saves]. rewrite elem_of_cons, elem_of_nil.
      by intros [->|[]].
  - cbn [snd w_saves]. rewrite elem_of_cons, elem_of_nil. by intros [->|[]].
Qed.

(** X21: for a JPEG target, an image with an alpha channel is pasted,
    with its last band as mask, on a new RGB image of its size filled with
    the background colour, and a palette image with a transparency entry
    is pasted on it without a mask; the encoder is handed the result of
    the paste, not the source. *)
Theorem transparent_image_is_pasted
    (img : Image) (target_format original_filename : pystr)
    (bg : Z * Z * Z) (sizes : option (list Sizes.size)) (pres : bool)
    (canvas pasted : Image) :
  Registry.normalize_format_name target_format = lit "JPEG" →
  has_alpha_mode img || has_palette_transparency img = true →
  pil_new P (lit "RGB") (im_size img) bg = Ok canvas →
  (if has_alpha_mode img
   then ∃ bands mask, pil_split P img = Ok bands
                      ∧ list.last bands = Some mask
                      ∧ pil_paste P canvas img (Some mask) = (pasted, None)
   else pil_paste P canvas img None = (pasted, None)) →
  head (w_saves (snd (convert_image_to_bytes P img target_format
                        original_filename bg sizes pres)))
  = Some (MkSaveCall pasted (lit "JPEG") ∅).
Proof.
  intros Ht Htrans Hnew Hpaste.
  assert (Hsrc : jpeg_image_to_save P img bg = Ok pasted).
  { unfold jpeg_image_to_save. rewrite Htrans, Hnew. cbn.
    destruct (has_alpha_mode img).
    - destruct Hpaste as (bands & mask & -> & Hlast & Hp). cbn.
      unfold last_item. rewrite Hlast. cbn. unfold paste. by rewrite Hp.
    - unfold paste. by rewrite Hpaste. }
  assert (Hbranch : animated_branch
            (Registry.normalize_format_name target_format) img pres = false)
    by by rewrite Ht.
  rewrite (plain_branch_run P img target_format original_filename bg sizes
             pres Hbranch).
  cbv zeta. rewrite Ht, Hsrc.
  change (bool_decide (lit "JPEG" = lit "JPEG")) with true. cbv iota.
  change (ico_save_kwargs (lit "JPEG") sizes) with (∅ : gmap string kwval).
  destruct (pil_save P _ _) as [buf1 [e1|]]; [|done].
  destruct (pil_convert P pasted (lit "RGBA")) as [temp|e]; [|done].
  by destruct (pil_save P _ buf1) as [buf2 [e2|]].
Qed.

End OrchestratorMore.

(** ** The animated branch, continued *)

Section AnimationMore.

Context (P : Pillow).

(** Reading the frames when each of them converts: one image per
    position, and the image object left on the last position read. *)
Lemma collect_frames_position (img : Image) (ks : list nat)
    (frames : list Image) (w : World) :
  im_format (w_img w) = im_format img →
  im_frames (w_img w) = im_frames img →
  (∀ k, k ∈ ks → ∃ f c, im_frames img !! k = Some f
                        ∧ pil_convert P (at_frame img k f) (lit "RGBA")
                          = Ok c) →
  ∃ out w',
    collect_frames P ks frames w = (Ok out, w')
    ∧ length out = (length frames + length ks)%nat
    ∧ im_format (w_img w') = im_format img
    ∧ im_frames (w_img w') = im_frames img
    ∧ (ks = [] → w_img w' = w_img w)
    ∧ (∀ k f, list.last ks = Some k → im_frames img !! k = Some f →
         w_img w' = at_frame img k f).
Proof.
  revert frames w. induction ks as [|k ks IH]; intros frames w Hfmt Hfr Hall.
  - exists frames, w. cbn. repeat split; try done; lia.
  - destruct (Hall k) as (f & c & Hk & Hc); [by left|].
    set (w1 := MkWorld (at_frame img k f) (w_out w) (w_saves w)).
    destruct (IH (frames ++ [c]) w1 eq_refl eq_refl) as
      (out & w' & Hrun & Hlen & Hfmt' & Hfr' & Hnil & Hlast).
    { intros k' Hk'. apply Hall. by right. }
    exists out, w'. split.
    { cbn [collect_frames]. rewrite !bind_run. unfold seek.
      rewrite Hfr, Hk. unfold convert. rewrite !bind_run.
      cbn [deref w_img]. cbv beta iota. unfold lift.
      rewrite Hfmt. fold (at_frame img k f). rewrite Hc.
      cbv beta iota. unfold mret, M_ret. cbv beta iota.
      rewrite !bind_run. cbn [deref]. cbv beta iota. exact Hrun. }
    split; [rewrite Hlen, length_app; cbn; lia|].
    split; [done|]. split; [done|]. split; [done|].
    intros k' f' Hk' Hf'. destruct ks as [|k2 ks].
    + cbn in Hk'. injection Hk' as <-. rewrite Hk in Hf'.
      injection Hf' as <-. by rewrite Hnil.
    + apply Hlast; [|done]. by rewrite last_cons_cons in Hk'.
Qed.

Lemma last_seq (n : nat) : list.last (seq 0 (S n)) = Some n.
Proof. rewrite seq_S. apply last_snoc. Qed.

(** X14: when every frame of an animated source converts, a conversion
    that preserves the animation hands the encoder as many frames as the
    source has, and leaves the image object it was given on its last
    frame, whether the save succeeds or falls back. *)
Theorem animation_reads_every_frame
    (img : Image) (target_format original_filename : pystr)
    (bg : Z * Z * Z) (sizes : option (list Sizes.size)) (pres : bool)
    (last_frame : Frame) :
  let run :=
    convert_image_to_bytes P img target_format original_filename bg sizes
      pres in
  animated_branch (Registry.normalize_format_name target_format) img pres
  = true →
  (∀ k f, im_frames img !! k = Some f →
     ∃ c, pil_convert P (at_frame img k f) (lit "RGBA") = Ok c) →
  list.last (im_frames img) = Some last_frame →
  w_img (snd run)
  = at_frame img (length (im_frames img) - 1) last_frame
  ∧ ∃ first rest,
      head (w_saves (snd run))
      = Some (MkSaveCall first (lit "GIF")
                (animated_kwargs rest
                   (default (PInt 0) (im_info img !! "loop"))
                   (default (PInt 100) (im_info img !! "duration"))))
      ∧ S (length rest) = length (im_frames img).
Proof.
  intros run Hbranch Hconv Hlastf. unfold run.
  rewrite (animated_branch_run P img target_format original_filename bg
             sizes pres Hbranch).
  cbv zeta. unfold save_animation. rewrite bind_run.
  destruct (im_frames img) as [|f0 fs] eqn:Hfs; [done|].
  set (n := length fs).
  assert (Hlook : im_frames img !! n = Some last_frame).
  { rewrite Hfs. rewrite last_lookup in Hlastf. exact Hlastf. }
  destruct (collect_frames_position img (seq 0 (S n)) [] (initial_world img)
              eq_refl eq_refl) as
    (out & w1 & Hrun & Hlen & _ & _ & _ & Hpos).
  { intros k Hk. apply list_elem_of_In, in_seq in Hk.
    destruct (lookup_lt_is_Some_2 (im_frames img) k) as [f Hf].
    { rewrite Hfs. cbn. lia. }
    pose proof Hf as Hf'. rewrite Hfs in Hf'.
    destruct (Hconv k f Hf') as [c Hc]. eauto. }
  specialize (Hpos n last_frame (last_seq n) Hlook).
  cbn [length]. fold n. rewrite Hrun.
  rewrite length_seq in Hlen. cbn [length] in Hlen.
  destruct out as [|first rest]; [discriminate Hlen|].
  replace (S n - 1)%nat with n by lia.
  destruct (collect_frames_quiet P (seq 0 (S n)) [] (initial_world img))
    as [Hs Ho].
  rewrite Hrun in Hs, Ho. cbn [snd initial_world w_saves w_out] in Hs, Ho.
  unfold save. rewrite bind_run. cbn [deref]. cbv beta iota.
  unfold encode. rewrite Hs, Ho. cbn [app].
  assert (Hcount : S (length rest) = S n) by (cbn in Hlen; lia).
  destruct (pil_save P _ _) as [buf [e|]]; cbn [w_img w_out w_saves].
  - destruct (pil_convert P (w_img w1) (lit "RGBA")) as [temp|e'].
    + destruct (pil_save P _ buf) as [buf2 [e2|]]; cbn [snd w_img w_saves];
        (split; [exact Hpos|]); exists first, rest; split; done.
    + cbn [snd w_img w_saves]. split; [exact Hpos|].
      exists first, rest. split; done.
  - cbn [snd w_img w_saves]. split; [exact Hpos|].
    exists first, rest. split; done.
Qed.

End AnimationMore.

(** ** The batch loop, continued *)

Section BatchMore.

Context (P : Pillow) (o : Options).

(** A record of the batch is the record of one of its files. *)
Lemma main_loop_records (files : list Upload) :
  (∀ x, x ∈ converted_files (main_loop P o files) →
     ∃ up, up ∈ files ∧ x ∈ converted_files (loop_body P o empty_batch up))
  ∧ (∀ x, x ∈ skipped_files (main_loop P o files) →
     ∃ up, up ∈ files ∧ x ∈ skipped_files (loop_body P o empty_batch up))
  ∧ (∀ x, x ∈ errors (main_loop P o files) →
     ∃ up, up ∈ files ∧ x ∈ errors (loop_body P o empty_batch up)).
Proof.
  induction files as [|up files (IH1 & IH2 & IH3)].
  - repeat split; intros x Hx; cbn in Hx; by apply elem_of_nil in Hx.
  - rewrite main_loop_cons. unfold batch_app. cbn [converted_files
      skipped_files errors].
    repeat split; intros x Hx; apply elem_of_app in Hx as [Hx|Hx];
      try (exists up; split; [by left | done]);
      [ destruct (IH1 x Hx) as (u & ? & ?)
      | destruct (IH2 x Hx) as (u & ? & ?)
      | destruct (IH3 x Hx) as (u & ? & ?) ];
      exists u; split; try done; by right.
Qed.

(** X15: a batch none of whose files is an image converts nothing and
    reports no error: every file is skipped as unidentified, in the
    order of the upload. *)
Theorem batch_without_images (files : list Upload) :
  (∀ up, up ∈ files →
     ∃ e, read_image_from_upload P (up_contents up) = Raise e
          ∧ is_unidentified e = true) →
  main_loop P o files
  = MkBatch [] ((λ up, (up_name up, lit "Unidentified image")) <$> files) [].
Proof.
  induction files as [|up files IH]; intros Hall; [done|].
  rewrite main_loop_cons, IH by (intros u Hu; apply Hall; by right).
  destruct (Hall up) as (e & He & Hcls); [by left|].
  unfold loop_body. by rewrite He, Hcls.
Qed.

(** X16: with forcing on, no file is skipped for its format: every skip
    of the batch is an unidentified file. *)
Theorem forced_batch_skips_only_non_images
    (files : list Upload) (name reason : pystr) :
  force_convert o = true →
  (name, reason) ∈ skipped_files (main_loop P o files) →
  reason = lit "Unidentified image".
Proof.
  intros Hforce Hin.
  destruct (main_loop_records files) as (_ & Hsk & _).
  destruct (Hsk _ Hin) as (up & _ & Hup). revert Hup.
  unfold loop_body. rewrite Hforce.
  destruct (read_image_from_upload P (up_contents up)) as [img|e].
  - cbn [negb]. rewrite andb_false_r.
    destruct (fst (convert_image_to_bytes P img _ _ _ _ _)) as [[b n]|e];
      cbn; by intros ?%elem_of_nil.
  - destruct (is_unidentified e); cbn.
    + rewrite elem_of_cons, elem_of_nil. by intros [[= -> ->]|[]].
    + by intros ?%elem_of_nil.
Qed.

(** X17: with forcing off, every converted file was detected as the
    declared input format: the format recorded with it is the
    normalized declaration. *)
Theorem unforced_batch_converts_declared_format
    (files : list Upload) (out_bytes : bytes)
    (out_filename detected : pystr) :
  force_convert o = false →
  (out_bytes, out_filename, detected)
    ∈ converted_files (main_loop P o files) →
  detected = Registry.normalize_format_name (have_fmt o).
Proof.
  intros Hforce Hin.
  destruct (main_loop_records files) as (Hcv & _ & _).
  destruct (Hcv _ Hin) as (up & _ & Hup). revert Hup.
  unfold loop_body. rewrite Hforce.
  destruct (read_image_from_upload P (up_contents up)) as [img|e].
  - case_bool_decide as Heq; cbn [negb andb].
    + destruct (fst (convert_image_to_bytes P img _ _ _ _ _)) as [[b n]|e];
        cbn.
      * rewrite elem_of_cons, elem_of_nil. by intros [[= -> -> ->]|[]].
      * by intros ?%elem_of_nil.
    + cbn. by intros ?%elem_of_nil.
  - destruct (is_unidentified e); cbn; by intros ?%elem_of_nil.
Qed.

(** X18: for a wanted format of the table, every converted file of a
    batch is named after one of the uploaded files, without its
    directories and extension and with the extension of the format; no
    name holds a path separator. *)
Theorem converted_names_are_plain
    (files : list Upload) (f : Registry.ImageFormat)
    (out_bytes : bytes) (out_filename detected : pystr) :
  Registry.spec_normalize (want_fmt o) = Some f →
  (out_bytes, out_filename, detected)
    ∈ converted_files (main_loop P o files) →
  (47%N ∉ out_filename)
  ∧ (∃ up, up ∈ files
           ∧ out_filename
             = fst (py_splitext (py_basename (up_name up)))
               ++ extension_of f).
Proof.
  intros Hf Hin.
  destruct (main_loop_records files) as (Hcv & _ & _).
  destruct (Hcv _ Hin) as (up & Hmem & Hup).
  assert (Hname : out_filename
                  = out_filename_for (up_name up)
                      (Registry.normalize_format_name (want_fmt o))).
  { revert Hup. unfold loop_body.
    destruct (read_image_from_upload P (up_contents up)) as [img|e].
    - destruct (_ && _); [cbn; by intros ?%elem_of_nil|].
      destruct (fst (convert_image_to_bytes P img _ _ _ _ _))
        as [[b n]|e] eqn:Hrun; [|cbn; by intros ?%elem_of_nil].
      cbn. rewrite elem_of_cons, elem_of_nil. intros [[= -> -> ->]|[]].
      destruct (convert_run_facts P img (want_fmt o) (up_name up)
                  (jpeg_rgb o) (Some (ico_sizes_opt o))
                  (preserve_animation_opt o)) as [_ Hok].
      by destruct (Hok _ _ Hrun) as (? & _).
    - destruct (is_unidentified e); cbn; by intros ?%elem_of_nil. }
  assert (Hn : Registry.normalize_format_name (want_fmt o)
               = Registry.format_name f).
  { rewrite RegistryFacts.normalize_unfold, RegistryFacts.mapping_alias.
    unfold Registry.spec_normalize in Hf. by rewrite Hf. }
  assert (Hext : Registry.get_extension_for_format (Registry.format_name f)
                 = extension_of f) by by destruct f.
  rewrite Hname. unfold out_filename_for. rewrite Hn, Hext. split.
  - rewrite not_elem_of_app. split.
    + apply splitext_root_within, basename_no_separator.
    + apply extension_no_separator.
  - by exists up.
Qed.

End BatchMore.

(** ** Detection and extensions, continued *)

Section DetectionMore.

Local Open Scope Z_scope.

Lemma rfind_absent (c : N) (p : pystr) (i last : Z) :
  c ∉ p → rfind_from c p i last = last.
Proof.
  revert i last. induction p as [|x r IH]; intros i last H; [done|].
  apply not_elem_of_cons in H as [Hne Hr]. cbn [rfind_from].
  destruct (N.eqb_spec x c) as [->|_]; [done|]. by apply IH.
Qed.

Lemma rfind_last_occurrence (c : N) (s e : pystr) (i last : Z) :
  c ∉ e → rfind_from c (s ++ c :: e) i last = i + Z.of_nat (length s).
Proof.
  intros He. revert i last. induction s as [|x s IH]; intros i last.
  - cbn [app rfind_from length]. rewrite N.eqb_refl, rfind_absent by done.
    lia.
  - cbn [app rfind_from length]. rewrite IH. lia.
Qed.

Lemma lstrip_dots_none (e : pystr) : 46%N ∉ e → lstrip_dots e = e.
Proof.
  destruct e as [|c r]; [done|]. intros H.
  apply not_elem_of_cons in H as [Hne _]. cbn.
  by destruct (N.eqb_spec c 46).
Qed.

(** The extension of a plain file name: what follows its last dot. *)
Lemma splitext_plain_name (stem e : pystr) :
  47%N ∉ stem → (∃ c, c ∈ stem ∧ c ≠ 46%N) → 46%N ∉ e → 47%N ∉ e →
  py_splitext (stem ++ [46%N] ++ e) = (stem, 46%N :: e).
Proof.
  intros Hsep (c & Hc & Hdot) He Hse. unfold py_splitext, py_rfind.
  cbn [app].
  rewrite (rfind_absent 47 (stem ++ 46%N :: e)).
  2:{ rewrite not_elem_of_app, not_elem_of_cons. repeat split; done. }
  rewrite (rfind_last_occurrence 46 stem e) by done.
  replace (Z.to_nat (0 + Z.of_nat (length stem) - -1 - 1))
    with (length stem) by lia.
  replace (Z.to_nat (0 + Z.of_nat (length stem))) with (length stem) by lia.
  replace (Z.to_nat (-1 + 1)) with 0%nat by lia.
  rewrite skipn_O, !take_app_length, drop_app_length.
  assert (Hex : existsb (λ x, negb (x =? 46)%N) stem = true).
  { apply existsb_exists. exists c. split; [by apply list_elem_of_In|].
    by destruct (N.eqb_spec c 46). }
  rewrite Hex.
  assert (Hlt : (-1 <? 0 + Z.of_nat (length stem)) = true)
    by (apply Z.ltb_lt; lia).
  by rewrite Hlt.
Qed.

(** X19: when the container names no format, a file called
    [stem.ext], without directory, is detected as [EXT]: its extension
    in upper case, whatever the pixel mode. *)
Theorem detection_from_plain_name (img : Image) (stem e : pystr) :
  im_format img = None ∨ im_format img = Some [] →
  47%N ∉ stem → (∃ c, c ∈ stem ∧ c ≠ 46%N) →
  e ≠ [] → 46%N ∉ e → 47%N ∉ e →
  image_format_from_pil img (stem ++ [46%N] ++ e) = py_upper e.
Proof.
  intros Hfmt Hsep Hstem Hne He Hse. unfold image_format_from_pil.
  rewrite splitext_plain_name by done. cbn [snd lstrip_dots].
  rewrite N.eqb_refl, lstrip_dots_none by done.
  assert (Hup : py_upper e ≠ []) by by destruct e.
  destruct Hstem as (c & Hc & _).
  destruct (stem ++ [46%N] ++ e) as [|x r] eqn:Hname.
  { destruct stem; [by apply elem_of_nil in Hc | discriminate Hname]. }
  destruct Hfmt as [-> | ->]; by destruct (py_upper e).
Qed.

Lemma detection_from_plain_name_witness :
  image_format_from_pil
    (MkImage None (MkFrame (lit "RGB") (1, 1) ∅ []) [] 0)
    (lit "holiday.photo" ++ [46%N] ++ lit "jpeg")
  = lit "JPEG".
Proof.
  refine (detection_from_plain_name
            (MkImage None (MkFrame (lit "RGB") (1, 1) ∅ []) [] 0)
            (lit "holiday.photo") (lit "jpeg") (or_introl eq_refl)
            _ _ _ _ _).
  - apply (bool_decide_unpack (47%N ∉ lit "holiday.photo")). by vm_compute.
  - exists 104%N. split; [|discriminate].
    apply (bool_decide_unpack (104%N ∈ lit "holiday.photo")). by vm_compute.
  - discriminate.
  - apply (bool_decide_unpack (46%N ∉ lit "jpeg")). by vm_compute.
  - apply (bool_decide_unpack (47%N ∉ lit "jpeg")). by vm_compute.
Defined.

End DetectionMore.

Module ExtensionMore.
Import Registry RegistryFacts RegistryMore.

Lemma ext_map_keys (k v : pystr) :
  ext_map !! k = Some v → ∃ f, k = format_name f.
Proof.
  intros H. apply elem_of_list_to_map_2 in H.
  repeat (apply elem_of_cons in H as [[= -> ->]|H];
          [first [ by exists JPEG | by exists PNG | by exists ICO
                 | by exists GIF | by exists BMP | by exists WEBP
                 | by exists TIFF ]|]).
  by apply elem_of_nil in H.
Qed.

(** X20: an ASCII name that is not in the table gets as extension a dot
    followed by the name itself, stripped and in lower case. *)
Theorem extension_of_unknown_name (s : pystr) :
  ascii_str s →
  spec_normalize s = None →
  get_extension_for_format s = 46%N :: py_lower (py_strip s).
Proof.
  intros Hs Hnone. unfold spec_normalize in Hnone.
  unfold get_extension_for_format.
  rewrite normalize_unfold, mapping_alias, Hnone.
  cbn [fmap option_fmap option_map default].
  destruct (unknown_key_stable s Hs) as [_ Hlow].
  destruct (ext_map !! py_upper (py_lower (py_strip s))) as [v|] eqn:E.
  - apply ext_map_keys in E as [f Hf]. rewrite Hf in Hlow.
    rewrite <- Hlow, alias_of_lower_name in Hnone. discriminate Hnone.
  - cbn [default]. by rewrite Hlow.
Qed.

Lemma extension_of_unknown_name_witness :
  get_extension_for_format (lit " Mpo ") = lit ".mpo".
Proof.
  assert (H : ascii_str (lit " Mpo ")).
  { repeat (constructor; [reflexivity|]). constructor. }
  exact (extension_of_unknown_name (lit " Mpo ") H eq_refl).
Defined.

End ExtensionMore.

(** ** The further properties on concrete files *)

Lemma returned_name_and_bytes_witness :
  lit "photo.gif"
  = out_filename_for (lit "photo.png")
      (Registry.normalize_format_name (lit "gif"))
  ∧ [Toy.px 1; Toy.px 2; Toy.px 3]
    = bio_data (w_out (snd (convert_image_to_bytes
                              (Toy.pillow Toy.accept_all) Toy.photo_image
                              (lit "gif") (lit "photo.png") (255, 255, 255)
                              None true))).
Proof.
  exact (returned_name_and_bytes (Toy.pillow Toy.accept_all)
           Toy.photo_image (lit "gif") (lit "photo.png") (255, 255, 255)
           None true [Toy.px 1; Toy.px 2; Toy.px 3] (lit "photo.gif")
           eq_refl).
Defined.

Lemma encoder_called_once_or_twice_witness :
  (1 ≤ length (w_saves (snd (convert_image_to_bytes
                               (Toy.pillow Toy.only_rgba) Toy.photo_image
                               (lit "png") (lit "photo.jpg")
                               (255, 255, 255)%Z None true))))%nat.
Proof.
  exact (proj2 (encoder_called_once_or_twice (Toy.pillow Toy.only_rgba)
                  Toy.photo_image (lit "png") (lit "photo.jpg")
                  (255, 255, 255) None true)
           (ex_intro _ ([Toy.px 1; Toy.px 2; Toy.px 3], lit "photo.png")
              eq_refl)).
Defined.

Lemma plain_conversion_keeps_position_witness :
  w_img (snd (convert_image_to_bytes (Toy.pillow Toy.accept_all)
                Toy.anim_image (lit "gif") (lit "anim.gif") (255, 255, 255)
                None false))
  = Toy.anim_image.
Proof.
  exact (plain_conversion_keeps_position (Toy.pillow Toy.accept_all)
           Toy.anim_image (lit "gif") (lit "anim.gif") (255, 255, 255)
           None false eq_refl).
Defined.

(** The PNG retry of an ICO conversion still carries the sizes. *)
Lemma sizes_reach_the_encoder_witness :
  MkSaveCall (Toy.rgba 0 [Toy.px 1; Toy.px 2; Toy.px 3]) (lit "PNG")
    {["sizes" := KSizes [(16, 16)%Z]]}
  ∈ w_saves (snd (convert_image_to_bytes (Toy.pillow Toy.only_rgba)
                    Toy.photo_image (lit "ico") (lit "photo.jpg")
                    (255, 255, 255) (Some [(16, 16)%Z]) true))
  ∧ sc_kwargs (MkSaveCall (Toy.rgba 0 [Toy.px 1; Toy.px 2; Toy.px 3])
                 (lit "PNG") {["sizes" := KSizes [(16, 16)%Z]]})
    = {["sizes" := KSizes [(16, 16)%Z]]}.
Proof.
  split; [exact (list_elem_of_further _ _ _ (list_elem_of_here _ _))|].
  exact (sizes_reach_the_encoder (Toy.pillow Toy.only_rgba)
           Toy.photo_image (lit "ico") (lit "photo.jpg") (255, 255, 255)
           [(16, 16)%Z] true
           (MkSaveCall (Toy.rgba 0 [Toy.px 1; Toy.px 2; Toy.px 3])
              (lit "PNG") {["sizes" := KSizes [(16, 16)%Z]]})
           eq_refl
           (list_elem_of_further _ _ _ (list_elem_of_here _ _))).
Defined.

Lemma animation_reads_every_frame_witness :
  w_img (snd (convert_image_to_bytes (Toy.pillow Toy.accept_all)
                Toy.anim_image (lit "gif") (lit "anim.gif") (255, 255, 255)
                None true))
  = at_frame Toy.anim_image 2 (Toy.frame 2 [Toy.px 3; Toy.px 3; Toy.px 3]).
Proof.
  exact (proj1 (animation_reads_every_frame (Toy.pillow Toy.accept_all)
                  Toy.anim_image (lit "gif") (lit "anim.gif")
                  (255, 255, 255) None true
                  (Toy.frame 2 [Toy.px 3; Toy.px 3; Toy.px 3])
                  eq_refl
                  (λ k f _, ex_intro _ _ eq_refl)
                  eq_refl)).
Defined.

(** Two files that are not images. *)
Lemma batch_without_images_witness :
  main_loop (Toy.pillow Toy.accept_all) (Toy.options "PNG" "GIF" false)
    [MkUpload (lit "notes.txt") []; MkUpload (lit "todo.md") [Toy.px 1]]
  = MkBatch []
      [(lit "notes.txt", lit "Unidentified image");
       (lit "todo.md", lit "Unidentified image")] [].
Proof.
  apply (batch_without_images (Toy.pillow Toy.accept_all)
           (Toy.options "PNG" "GIF" false)
           [MkUpload (lit "notes.txt") []; MkUpload (lit "todo.md") [Toy.px 1]]).
  intros up Hup. exists Toy.unidentified.
  apply elem_of_cons in Hup as [->|Hup]; [by split|].
  apply elem_of_cons in Hup as [->|Hup]; [by split|].
  by apply elem_of_nil in Hup.
Defined.

(** A text file and a JPEG declared as PNG, forcing on: one skip. *)
Lemma forced_batch_skips_only_non_images_witness :
  skipped_files
    (main_loop (Toy.pillow Toy.accept_all) (Toy.options "PNG" "GIF" true)
       [MkUpload (lit "notes.txt") []; Toy.photo])
  = [(lit "notes.txt", lit "Unidentified image")]
  ∧ lit "Unidentified image" = lit "Unidentified image".
Proof.
  split; [reflexivity|].
  exact (forced_batch_skips_only_non_images (Toy.pillow Toy.accept_all)
           (Toy.options "PNG" "GIF" true)
           [MkUpload (lit "notes.txt") []; Toy.photo]
           (lit "notes.txt") (lit "Unidentified image") eq_refl
           (list_elem_of_here _ _)).
Defined.

(** A JPEG declared as jpg, forcing off. *)
Lemma unforced_batch_converts_declared_format_witness :
  converted_files
    (main_loop (Toy.pillow Toy.accept_all) (Toy.options "jpg" "GIF" false)
       [MkUpload (lit "notes.txt") []; Toy.photo])
  = [(up_contents Toy.photo, lit "photo.gif", lit "JPEG")]
  ∧ lit "JPEG" = Registry.normalize_format_name (lit "jpg").
Proof.
  split; [reflexivity|].
  exact (unforced_batch_converts_declared_format
           (Toy.pillow Toy.accept_all) (Toy.options "jpg" "GIF" false)
           [MkUpload (lit "notes.txt") []; Toy.photo]
           (up_contents Toy.photo) (lit "photo.gif") (lit "JPEG") eq_refl
           (list_elem_of_here _ _)).
Defined.

(** A file uploaded under a name with directories. *)
Lemma converted_names_are_plain_witness :
  converted_files
    (main_loop (Toy.pillow Toy.accept_all) (Toy.options "jpg" "GIF" false)
       [MkUpload (lit "notes.txt") [];
        MkUpload (lit "../in/photo.png") (up_contents Toy.photo)])
  = [(up_contents Toy.photo, lit "photo.gif", lit "JPEG")]
  ∧ 47%N ∉ lit "photo.gif".
Proof.
  split; [reflexivity|].
  exact (proj1 (converted_names_are_plain (Toy.pillow Toy.accept_all)
                  (Toy.options "jpg" "GIF" false)
                  [MkUpload (lit "notes.txt") [];
                   MkUpload (lit "../in/photo.png") (up_contents Toy.photo)]
                  Registry.GIF
                  (up_contents Toy.photo) (lit "photo.gif") (lit "JPEG")
                  eq_refl (list_elem_of_here _ _))).
Defined.

(** An RGBA image to JPEG: the encoder gets the pasted background. *)
Lemma transparent_image_is_pasted_witness :
  head (w_saves (snd (convert_image_to_bytes (Toy.pillow Toy.accept_all)
                        (Toy.rgba 0 [Toy.px 7; Toy.px 8; Toy.px 9])
                        (lit "jpeg") (lit "logo.png") (255, 0, 0) None
                        true)))
  = Some (MkSaveCall
            (Toy.memory_image
               (MkFrame (lit "RGB") (1, 1) ∅ [Toy.px 7; Toy.px 8; Toy.px 9]))
            (lit "JPEG") ∅).
Proof.
  exact (transparent_image_is_pasted (Toy.pillow Toy.accept_all)
           (Toy.rgba 0 [Toy.px 7; Toy.px 8; Toy.px 9])
           (lit "jpeg") (lit "logo.png") (255, 0, 0) None true
           (Toy.memory_image (MkFrame (lit "RGB") (1, 1) ∅ []))
           (Toy.memory_image
              (MkFrame (lit "RGB") (1, 1) ∅ [Toy.px 7; Toy.px 8; Toy.px 9]))
           eq_refl eq_refl eq_refl
           (ex_intro _ _ (ex_intro _ _ (conj eq_refl (conj eq_refl eq_refl))))).
Defined.
